(** * Pex: the TLV transport layer (pex.proto.tlv), its HTTP listener
      (pex.proto.http) and the FTP client (pex.proto.ftp)

    A shallow embedding of the Python sources.  Python objects that are
    mutated in place (the socket, the listener's [methods] dict, a
    [TLVServerHTTP] instance captured by its handler closures, a request)
    are threaded as explicit state; a call that may raise returns an
    [outcome] next to the state it leaves behind. *)

From Stdlib Require Import ZArith Lia List Bool.
From Stdlib Require Import Strings.Byte.
From stdpp Require Import base option list strings gmap pretty.

Import ListNotations.
Local Open Scope Z_scope.

(* ===================================================================== *)
(** ** Bytes and [struct]'s 32-bit network byte order                     *)
(* ===================================================================== *)

(** A Python [bytes] value. *)
Abbreviation bytes := (list byte).

(** [len(b)] as a Python integer. *)
Definition len (b : bytes) : Z := Z.of_nat (length b).

Definition byte_to_Z (b : byte) : Z := Z.of_N (Byte.to_N b).

(** The low eight bits of [z], as a byte. *)
Definition Z_to_byte (z : Z) : byte :=
  match Byte.of_N (Z.to_N (Z.land z 255)) with
  | Some b => b
  | None => x00
  end.

(** [struct.pack('!I', n)] for [n] in 0..2^32-1: four bytes, most
    significant first.  Outside that range [struct.pack] raises
    [struct.error]; the bytes given here for such [n] stand for no call,
    and the statements that depend on these bytes keep [n] within the
    range. *)
Definition pack_I (n : Z) : bytes :=
  [ Z_to_byte (Z.shiftr n 24); Z_to_byte (Z.shiftr n 16);
    Z_to_byte (Z.shiftr n 8); Z_to_byte n ].

(** [struct.unpack('!I', b)[0]]: defined on exactly four bytes,
    [struct.error] (here [None]) on any other length. *)
Definition unpack_I (b : bytes) : option Z :=
  match b with
  | [b3; b2; b1; b0] =>
      Some (Z.lor (Z.shiftl (byte_to_Z b3) 24)
           (Z.lor (Z.shiftl (byte_to_Z b2) 16)
           (Z.lor (Z.shiftl (byte_to_Z b1) 8) (byte_to_Z b0))))
  | _ => None
  end.

(* ===================================================================== *)
(** ** The packet codec                                                   *)
(* ===================================================================== *)

(** Modelled from the spec: a [TLVPacket] (pex/proto/tlv/packet.py is not
    among the sources) is held as its serialized wire form, which is how
    [client.py] uses it: built from a buffer ([TLVPacket(buffer=buffer)],
    [TLVPacket(data)]) and read back through [packet.buffer]. *)
Record TLVPacket := mkTLVPacket { buffer : bytes }.

(** Modelled from the spec: the decoded view of a packet, a 32-bit [type]
    and a [payload]; its [length] is derived from the payload. *)
Record Packet := mkPacket { ptype : Z; payload : bytes }.

(** Modelled from the spec: [encode(type, payload)], the wire form
    [type(4 bytes BE) || length(4 bytes BE) || payload]. *)
Definition encode (type : Z) (payload : bytes) : bytes :=
  pack_I type ++ pack_I (len payload) ++ payload.

Inductive FormatError := BufferTooShort.

(** Modelled from the spec: [decode(buffer)] parses a buffer holding a
    complete frame, and fails with a FormatError when the buffer is shorter
    than 8 bytes or shorter than 8 + the declared length. *)
Definition decode (buf : bytes) : FormatError + Packet :=
  if len buf <? 8 then inl BufferTooShort
  else
    match unpack_I (take 4 buf), unpack_I (take 4 (drop 4 buf)) with
    | Some type, Some length =>
        if len buf <? 8 + length then inl BufferTooShort
        else inr (mkPacket type (take (Z.to_nat length) (drop 8 buf)))
    | _, _ => inl BufferTooShort
    end.

(* ===================================================================== *)
(** ** Python control flow: exceptions and calls that do not return       *)
(* ===================================================================== *)

(** The exceptions the modelled code raises or meets.  [OSError errno] is
    [socket.error] (an alias of [OSError] in Python 3) with its [errno]. *)
Inductive exn :=
| RuntimeError (msg : string)
| OSError (errno : Z)
| StructError
| KeyError (key : string)
| TypeError
| ValueError
| AttributeError
| FTPError (reply : string)
| EOFError.

(** [errno] constants (Linux values; EAGAIN and EWOULDBLOCK coincide). *)
Definition EBADF : Z := 9.
Definition EAGAIN : Z := 11.
Definition EWOULDBLOCK : Z := 11.
Definition EPIPE : Z := 32.

(** How a call ends: it returns a value, raises, blocks for ever on a
    socket that never becomes ready ([Blocks]), or is still looping when
    the iteration budget of the model is used up ([OutOfFuel]). *)
Inductive outcome (A : Type) :=
| Return (a : A)
| Raise (e : exn)
| Blocks
| OutOfFuel.
Arguments Return {A} a.
Arguments Raise {A} e.
Arguments Blocks {A}.
Arguments OutOfFuel {A}.

(** A method of an object with state [S]: the outcome and the state left
    behind (also when it raises). *)
Definition M (S A : Type) : Type := S -> outcome A * S.

Definition ret {S A} (a : A) : M S A := fun s => (Return a, s).
Definition raise {S A} (e : exn) : M S A := fun s => (Raise e, s).

Definition bind {S A B} (m : M S A) (k : A -> M S B) : M S B :=
  fun s =>
    match m s with
    | (Return a, s') => k a s'
    | (Raise e, s') => (Raise e, s')
    | (Blocks, s') => (Blocks, s')
    | (OutOfFuel, s') => (OutOfFuel, s')
    end.

(** [try: m  except <class> as e: h e], where [handles e] tells whether
    [e] is an instance of the class. *)
Definition try_except {S A} (m : M S A) (handles : exn -> bool)
    (h : exn -> M S A) : M S A :=
  fun s =>
    match m s with
    | (Raise e, s') => if handles e then h e s' else (Raise e, s')
    | r => r
    end.

Declare Scope py_scope.
Delimit Scope py_scope with py.
Notation "x <- m ;; k" := (bind m (fun x => k))
  (at level 100, m at next level, right associativity) : py_scope.
Notation "m ;;; k" := (bind m (fun _ => k))
  (at level 100, right associativity) : py_scope.

(** [isinstance(e, socket.error)]. *)
Definition is_socket_error (e : exn) : bool :=
  match e with OSError _ => true | _ => false end.

(** [isinstance(e, Exception)]: every exception of [exn] is one. *)
Definition is_Exception (e : exn) : bool := true.

(* ===================================================================== *)
(** ** The stream socket the client owns                                  *)
(* ===================================================================== *)

(** What successive [recv] calls meet: a segment of bytes that is ready,
    or a failure of the connection. *)
Inductive rx_event :=
| Segment (b : bytes)
| RecvError (errno : Z).

(** What successive [send] calls meet: room for [n] bytes, or a failure. *)
Inductive tx_event :=
| Accept (n : nat)
| SendError (errno : Z).

(** A [socket.socket]: the events its next [recv] and [send] calls meet,
    the bytes transmitted so far, its blocking mode and whether [close]
    was called on it. *)
Record socket := mkSocket {
  rx : list rx_event;
  tx : list tx_event;
  wire : bytes;
  blocking : bool;
  closed : bool
}.

Definition set_rx (v : list rx_event) (s : socket) : socket :=
  mkSocket v (tx s) (wire s) (blocking s) (closed s).
Definition set_tx (v : list tx_event) (s : socket) : socket :=
  mkSocket (rx s) v (wire s) (blocking s) (closed s).
Definition set_wire (v : bytes) (s : socket) : socket :=
  mkSocket (rx s) (tx s) v (blocking s) (closed s).
Definition set_blocking (v : bool) (s : socket) : socket :=
  mkSocket (rx s) (tx s) (wire s) v (closed s).
Definition set_closed (v : bool) (s : socket) : socket :=
  mkSocket (rx s) (tx s) (wire s) (blocking s) v.

(** The peer's bytes reaching the socket between two calls. *)
Definition arrive (evs : list rx_event) (s : socket) : socket :=
  set_rx (rx s ++ evs) s.

(** [sock.setblocking(flag)]. *)
Definition sock_setblocking (flag : bool) : M socket unit :=
  fun s =>
    if closed s then (Raise (OSError EBADF), s)
    else (Return tt, set_blocking flag s).

(** [sock.recv(size)]: at most [size] bytes of the segment that is ready.
    With nothing ready a blocking socket waits and a non-blocking one
    raises EAGAIN; a negative [size] is refused. *)
Definition sock_recv (size : Z) : M socket bytes :=
  fun s =>
    if size <? 0 then (Raise ValueError, s)
    else if closed s then (Raise (OSError EBADF), s)
    else
      match rx s with
      | [] => if blocking s then (Blocks, s) else (Raise (OSError EAGAIN), s)
      | Segment b :: rest =>
          if len b <=? size then (Return b, set_rx rest s)
          else (Return (take (Z.to_nat size) b),
                set_rx (Segment (drop (Z.to_nat size) b) :: rest) s)
      | RecvError e :: rest => (Raise (OSError e), set_rx rest s)
      end.

(** [sock.send(data)]: the number of bytes the socket took, which may be
    fewer than [len(data)]. *)
Definition sock_send (data : bytes) : M socket Z :=
  fun s =>
    if closed s then (Raise (OSError EBADF), s)
    else
      match tx s with
      | [] => if blocking s then (Blocks, s) else (Raise (OSError EAGAIN), s)
      | Accept n :: rest =>
          let sent := Nat.min n (length data) in
          (Return (Z.of_nat sent),
           set_wire (wire s ++ take sent data) (set_tx rest s))
      | SendError e :: rest => (Raise (OSError e), set_tx rest s)
      end.

(** [sock.close()]: closing twice is allowed. *)
Definition sock_close : M socket unit :=
  fun s => (Return tt, set_closed true s).

(* ===================================================================== *)
(** ** TLVClient                                                          *)
(* ===================================================================== *)

(** [self.client] is the socket, or [None]. *)
Record TLVClient := mkTLVClient { client : option socket }.

(** [self.client.<method>(...)]: runs a socket method on the socket the
    client holds. *)
Definition on_client {A} (op : M socket A) : M TLVClient A :=
  fun self =>
    match client self with
    | Some s => let (r, s') := op s in (r, mkTLVClient (Some s'))
    | None => (Raise AttributeError, self)
    end.

(** [not self.client] *)
Definition not_client (self : TLVClient) : bool :=
  match client self with Some _ => false | None => true end.

Definition not_connected : exn := RuntimeError "Socket is not connected!".

Module TLVClientMethods.
Local Open Scope py_scope.

(** [TLVClient.close] *)
Definition close : M TLVClient unit :=
  fun self =>
    if not_client self then ret tt self
    else on_client sock_close self.

(** [TLVClient.read_raw] *)
Definition read_raw (size : Z) : M TLVClient bytes :=
  fun self =>
    if not_client self then raise not_connected self
    else on_client (sock_recv size) self.

(** The loop of [TLVClient.send_raw]:
    [while data: try: sent = send(data); data = data[sent:]
     except socket.error as e: if e.errno in (EAGAIN, EWOULDBLOCK): continue] *)
Fixpoint send_loop (fuel : nat) (data : bytes) : M TLVClient unit :=
  match data with
  | [] => ret tt
  | _ :: _ =>
      match fuel with
      | O => fun self => (OutOfFuel, self)
      | S fuel' =>
          data' <- try_except
                     (sent <- on_client (sock_send data) ;;
                      ret (drop (Z.to_nat sent) data))
                     is_socket_error
                     (fun e =>
                        match e with
                        | OSError errno =>
                            if (errno =? EAGAIN) || (errno =? EWOULDBLOCK)
                            then ret data   (* continue *)
                            else ret data   (* the handler ends; the loop goes on *)
                        | _ => ret data
                        end) ;;
          send_loop fuel' data'
      end
  end.

(** [TLVClient.send_raw] *)
Definition send_raw (fuel : nat) (data : bytes) : M TLVClient unit :=
  fun self =>
    if not_client self then raise not_connected self
    else send_loop fuel data self.

(** [TLVClient.send] *)
Definition send (fuel : nat) (packet : TLVPacket) : M TLVClient unit :=
  send_raw fuel (buffer packet).

(** The loop of [TLVClient.read]:
    [while length > 0: chunk = self.read_raw(length); value += chunk;
     length -= len(chunk)] *)
Fixpoint read_value (fuel : nat) (length : Z) (value : bytes) : M TLVClient bytes :=
  if 0 <? length then
    match fuel with
    | O => fun self => (OutOfFuel, self)
    | S fuel' =>
        chunk <- read_raw length ;;
        read_value fuel' (length - len chunk) (value ++ chunk)
    end
  else ret value.

(** What the first [try] of [TLVClient.read] hands on: the four bytes (or
    what was read of them), or the early [return] of the handler. *)
Inductive first_read :=
| GotBuffer (b : bytes)
| ReturnNone.

(** [TLVClient.read]; [None] is Python's [None]. *)
Definition read (fuel : nat) (block : bool) : M TLVClient (option TLVPacket) :=
  fun self =>
    if not_client self then raise not_connected self
    else
      (on_client (sock_setblocking block) ;;;
       first <- try_except
                  (b <- read_raw 4 ;; ret (GotBuffer b))
                  is_socket_error
                  (fun e =>
                     match e with
                     | OSError errno =>
                         if (errno =? EAGAIN) || (errno =? EWOULDBLOCK)
                         then ret ReturnNone
                         else ret (GotBuffer [])
                     | _ => ret (GotBuffer [])
                     end) ;;
       match first with
       | ReturnNone => ret None
       | GotBuffer buf =>
           on_client (sock_setblocking true) ;;;
           length <- read_raw 4 ;;
           let buf := buf ++ length in
           match unpack_I length with
           | None => raise StructError
           | Some length =>
               value <- read_value fuel length [] ;;
               ret (Some (mkTLVPacket (buf ++ value)))
           end
       end) self.

End TLVClientMethods.

(* ===================================================================== *)
(** ** The HTTP request handed to a handler                               *)
(* ===================================================================== *)

(** A [PrimitiveHandler] instance while it serves one request: the request
    line and headers, the unread body ([rfile]), and the response so far.
    [status] lists the status codes sent, [wfile] the body bytes written.
    [faults] scripts the connection: the n-th write to the client succeeds
    ([None], also when the script is used up) or raises. *)
Record request := mkRequest {
  path : string;
  headers : gmap string string;
  rfile : bytes;
  status : list Z;
  wfile : bytes;
  faults : list (option exn)
}.

(** One write reaching the client: consumes a slot of the script. *)
Definition client_write (commit : request -> request) : M request unit :=
  fun r =>
    let next f := mkRequest (path r) (headers r) (rfile r) (status r) (wfile r) f in
    match faults r with
    | Some e :: rest => (Raise e, next rest)
    | None :: rest => (Return tt, commit (next rest))
    | [] => (Return tt, commit r)
    end.

(** [request.wfile.write(data)] *)
Definition wfile_write (data : bytes) : M request unit :=
  client_write (fun r =>
    mkRequest (path r) (headers r) (rfile r) (status r) (wfile r ++ data) (faults r)).

(** [PrimitiveHandler.send_status]: [send_response], [send_header] and
    [end_headers] buffer the status line and the Content-type header and
    flush them to the client in one write. *)
Definition send_status (code : Z) : M request unit :=
  client_write (fun r =>
    mkRequest (path r) (headers r) (rfile r) (status r ++ [code]) (wfile r) (faults r)).

(** [request.rfile.read(length)]: [length] bytes of the body (what is left
    of it when it is shorter); a negative [length] reads to the end. *)
Definition rfile_read (length : Z) : M request bytes :=
  fun r =>
    let n := if length <? 0 then List.length (rfile r) else Z.to_nat length in
    (Return (take n (rfile r)),
     mkRequest (path r) (headers r) (drop n (rfile r)) (status r) (wfile r) (faults r)).

(* ===================================================================== *)
(** ** HTTPListener and TLVServerHTTP                                     *)
(* ===================================================================== *)

(** The two closures [TLVServerHTTP.__init__] defines, each capturing the
    instance ([self], a reference into the heap of transports). *)
Inductive handler :=
| TLV_get (self : nat)
| TLV_post (self : nat).

#[global] Instance handler_eq_dec : EqDecision handler.
Proof. solve_decision. Defined.

(** A [TLVServerHTTP] instance.  [callback] names the callable to run on
    each received packet, if any; [self.server] is the listener of the
    [world] below. *)
Record TLVServerHTTP := mkTLVServerHTTP {
  callback : option nat;
  urlpath : string;
  egress : bytes
}.

(** The listener's [methods] dict, the transports bound to it, and the
    calls made to the callbacks so far (callable, argument). *)
Record world := mkWorld {
  methods : gmap string (gmap string handler);
  transports : gmap nat TLVServerHTTP;
  calls : list (nat * TLVPacket)
}.

Definition set_methods (m : gmap string (gmap string handler)) (w : world) : world :=
  mkWorld m (transports w) (calls w).
Definition set_transport (i : nat) (t : TLVServerHTTP) (w : world) : world :=
  mkWorld (methods w) (<[i := t]> (transports w)) (calls w).
Definition log_call (cb : nat) (p : TLVPacket) (w : world) : world :=
  mkWorld (methods w) (transports w) (calls w ++ [(cb, p)]).

(** The dict [{'GET': get, 'POST': post}] of the instance [i]. *)
Definition handlers_of (i : nat) : gmap string handler :=
  <["POST" := TLV_post i]> (<["GET" := TLV_get i]> ∅).

(** A handler runs on the listener's world and on the request. *)
Definition on_request {A} (op : M request A) : M (world * request) A :=
  fun '(w, r) => let (a, r') := op r in (a, (w, r')).
Definition on_world {A} (op : M world A) : M (world * request) A :=
  fun '(w, r) => let (a, w') := op w in (a, (w', r)).

(** Reads the instance [i]. *)
Definition get_self (i : nat) : M world TLVServerHTTP :=
  fun w =>
    match transports w !! i with
    | Some t => (Return t, w)
    | None => (Raise AttributeError, w)
    end.

(** [dict.pop(key)] on the listener's [methods]. *)
Definition methods_pop (key : string) : M world unit :=
  fun w =>
    match methods w !! key with
    | Some _ => (Return tt, set_methods (delete key (methods w)) w)
    | None => (Raise (KeyError key), w)
    end.

(** [dict.update({key: value})] on the listener's [methods]. *)
Definition methods_update (key : string) (value : gmap string handler) : M world unit :=
  fun w => (Return tt, set_methods (<[key := value]> (methods w)) w).

Module TLVServerHTTPMethods.
Local Open Scope py_scope.

(** [TLVServerHTTP.__init__]: the new instance gets a fresh reference. *)
Definition init (cb : option nat) (urlpath : string) : M world nat :=
  fun w =>
    let i := fresh (dom (transports w)) in
    (methods_update urlpath (handlers_of i) ;;;
     ret i) (set_transport i (mkTLVServerHTTP cb urlpath []) w).

(** [TLVServerHTTP.set_urlpath] *)
Definition set_urlpath (i : nat) (new_urlpath : string) : M world unit :=
  self <- get_self i ;;
  methods_pop (urlpath self) ;;;
  let self' := mkTLVServerHTTP (callback self) ("/" +:+ new_urlpath) (egress self) in
  (fun w => (Return tt, set_transport i self' w)) ;;;
  methods_update (urlpath self') (handlers_of i).

(** [TLVServerHTTP.send] *)
Definition send (i : nat) (packet : TLVPacket) : M world unit :=
  self <- get_self i ;;
  fun w => (Return tt,
    set_transport i
      (mkTLVServerHTTP (callback self) (urlpath self) (egress self ++ buffer packet)) w).

(** [TLVServerHTTP.close] *)
Definition close (i : nat) : M world unit :=
  self <- get_self i ;;
  methods_pop (urlpath self).

(** The closure [get] of [TLVServerHTTP.__init__]. *)
Definition get (i : nat) : M (world * request) unit :=
  self <- on_world (get_self i) ;;
  fun '(w, r) =>
    if negb (String.eqb (path r) (urlpath self)) then (Return tt, (w, r))
    else
      (on_request (send_status 200) ;;;
       on_request (wfile_write (egress self)) ;;;
       on_world (fun w => (Return tt,
         set_transport i (mkTLVServerHTTP (callback self) (urlpath self) []) w)))
      (w, r).

Section Post.
(** The builtin [int] on a header value: [None] stands for ValueError. *)
Variable int_of_str : string -> option Z.

(** [int(request.headers['Content-Length'])]: a header that is missing
    reads as [None], on which [int] raises TypeError.  [headers] is read
    under the name as written; the server's header object ignores the case
    of names, so the two agree on requests whose Content-Length header, if
    there is one, is spelled that way. *)
Definition content_length : M request Z :=
  fun r =>
    match headers r !! "Content-Length" with
    | None => (Raise TypeError, r)
    | Some v =>
        match int_of_str v with
        | Some n => (Return n, r)
        | None => (Raise ValueError, r)
        end
    end.

(** The closure [post] of [TLVServerHTTP.__init__]. *)
Definition post (i : nat) : M (world * request) unit :=
  self <- on_world (get_self i) ;;
  fun '(w, r) =>
    if negb (String.eqb (path r) (urlpath self)) then (Return tt, (w, r))
    else
      (length <- on_request content_length ;;
       data <- on_request (rfile_read length) ;;
       on_request (send_status 200) ;;;
       try_except (on_request (wfile_write (egress self)))
         is_Exception (fun _ => ret tt) ;;;
       match callback self with
       | Some cb => on_world (fun w => (Return tt, log_call cb (mkTLVPacket data) w))
       | None => ret tt
       end)
      (w, r).

(** Calling a registered handler. *)
Definition call_handler (h : handler) : M (world * request) unit :=
  match h with
  | TLV_get i => get i
  | TLV_post i => post i
  end.

(** [not method], for the value of [self.methods.get(request.path, None)]:
    true for [None] and for an empty dict. *)
Definition not_method (method : option (gmap string handler)) : bool :=
  match method with
  | None => true
  | Some m => bool_decide (m = ∅)
  end.

(** The dispatch both closures of [HTTPListener.__init__] do, for the
    HTTP method [verb] ('GET' for [do_GET], 'POST' for [do_POST]). *)
Definition dispatch (verb : string) : M (world * request) unit :=
  fun '(w, r) =>
    let method := methods w !! path r in
    if not_method method then on_request (send_status 404) (w, r)
    else
      match method ≫= (λ m : gmap string handler, m !! verb) with
      | Some callback => call_handler callback (w, r)
      | None => (Return tt, (w, r))
      end.

(** [HTTPListener]'s [do_GET] and [do_POST]. *)
Definition do_GET : M (world * request) unit := dispatch "GET".
Definition do_POST : M (world * request) unit := dispatch "POST".

End Post.
End TLVServerHTTPMethods.

(** A fresh request for [path], as the HTTP server hands it to [do_GET] or
    [do_POST]: nothing sent yet. *)
Definition incoming (path : string) (headers : gmap string string) (body : bytes)
    (faults : list (option exn)) : request :=
  mkRequest path headers body [] [] faults.

(** The transport [i] is registered: it exists, and the listener maps its
    [urlpath] to its two handlers. *)
Definition bound (w : world) (i : nat) (t : TLVServerHTTP) : Prop :=
  transports w !! i = Some t /\ methods w !! urlpath t = Some (handlers_of i).

(** [int] on a string of decimal digits. *)
Definition digit_of (c : Ascii.ascii) : option Z :=
  let n := Z.of_nat (Ascii.nat_of_ascii c) in
  if (48 <=? n) && (n <=? 57) then Some (n - 48) else None.

Fixpoint int_of_digits_from (acc : Z) (s : string) : option Z :=
  match s with
  | EmptyString => Some acc
  | String c s' =>
      match digit_of c with
      | Some d => int_of_digits_from (10 * acc + d) s'
      | None => None
      end
  end.

Definition int_of_digits (s : string) : option Z :=
  match s with
  | EmptyString => None
  | _ => int_of_digits_from 0 s
  end.

(* ===================================================================== *)
(** ** FTPClient                                                          *)
(* ===================================================================== *)

(** The [ftplib.FTP] object with the server behind it: what a command
    given to [retrbinary] yields, the blocks of data in order and then, if
    the transfer fails, the exception. *)
Record FTP := mkFTP { retr : string -> list bytes * option exn }.

Record FTPClient := mkFTPClient {
  host : string;
  port : Z;
  ftp_client : FTP
}.

Module FTPClientMethods.
Local Open Scope py_scope.

(** [io.BytesIO.write], on the buffer of the [BytesIO]. *)
Definition BytesIO_write (block : bytes) : M bytes unit :=
  fun fp => (Return tt, fp ++ block).

(** [ftplib.FTP.retrbinary(cmd, callback)]: hands each block to
    [callback], then returns the final reply or raises. *)
Fixpoint feed (callback : bytes -> M bytes unit) (blocks : list bytes) : M bytes unit :=
  match blocks with
  | [] => ret tt
  | b :: rest => callback b ;;; feed callback rest
  end.

Definition retrbinary (c : FTP) (cmd : string) (callback : bytes -> M bytes unit)
    : M bytes string :=
  let '(blocks, failure) := retr c cmd in
  feed callback blocks ;;;
  match failure with
  | Some e => raise e
  | None => ret "226 Transfer complete."%string
  end.

(** [FTPClient.get_file] *)
Definition get_file (self : FTPClient) (remote_file : string) : outcome bytes :=
  fst (try_except
         (retrbinary (ftp_client self) ("RETR " +:+ remote_file) BytesIO_write ;;;
          fun fp => (Return fp, fp))
         is_Exception
         (fun _ => ret [])
         ([] : bytes)).

End FTPClientMethods.

(* ===================================================================== *)
(** ** Vocabulary of the statements                                       *)
(* ===================================================================== *)

Import TLVClientMethods.

(** What the call leaves behind satisfies [P] whenever what it started
    from does, however the call ends. *)
Definition preserves {St A} (P : St -> Prop) (m : M St A) : Prop :=
  forall s r s', m s = (r, s') -> P s -> P s'.

(** The client holds a socket that is in blocking mode. *)
Definition is_blocking (self : TLVClient) : Prop :=
  exists s, client self = Some s /\ blocking s = true.

(** The frame of the end-to-end scenario, type 1 with payload PING. *)
Definition PING : bytes := [x50; x49; x4e; x47].
Definition ping_frame : bytes := encode 1 PING.

(** A connected client whose socket holds [evs] to receive and meets
    [script] when it sends. *)
Definition connected (evs : list rx_event) (script : list tx_event) : TLVClient :=
  mkTLVClient (Some (mkSocket evs script [] true false)).

(** Each byte of [b] in a segment of its own. *)
Definition one_byte_segments (b : bytes) : list rx_event :=
  map (fun x => Segment [x]) b.

(** The bytes a script of writes has room for. *)
Fixpoint capacity (script : list tx_event) : nat :=
  match script with
  | [] => 0
  | Accept n :: rest => n + capacity rest
  | SendError _ :: rest => capacity rest
  end.

(** The segments left after [recv(n)] took from the first one. *)
Definition remainder (n : nat) (chunks : list bytes) : list bytes :=
  match chunks with
  | [] => []
  | c :: rest => if (length c <=? n)%nat then rest else drop n c :: rest
  end.

(** [recv(n)] returns [n] bytes: the first segment holds that many. *)
Definition delivers (n : nat) (chunks : list bytes) : bool :=
  match chunks with
  | c :: _ => (n <=? length c)%nat
  | [] => false
  end.

(** Both words of the header come out of one [recv(4)] each. *)
Definition header_unsplit (chunks : list bytes) : bool :=
  delivers 4 chunks && delivers 4 (remainder 4 chunks).


(** A transport created on a listener with no registration, with the
    callable 7 as its callback. *)
Definition fresh_world (p : string) : world :=
  snd (TLVServerHTTPMethods.init (Some 7%nat) p (mkWorld ∅ ∅ [])).

(** The frame of the HTTP tunnel scenario, type 3 with payload ACK. *)
Definition ACK_frame : bytes := encode 3 [x41; x43; x4b].

(** [for packet in packets: transport.send(packet)], on the transport [i]. *)
Fixpoint send_each (i : nat) (packets : list TLVPacket) : M world unit :=
  match packets with
  | [] => ret tt
  | p :: rest => bind (TLVServerHTTPMethods.send i p) (fun _ => send_each i rest)
  end.

(* ===================================================================== *)
(** ** HTTPListener: listen, stop, accept, loop                           *)
(* ===================================================================== *)

Module HTTPListenerMethods.
Local Open Scope py_scope.

(** The [PrimitiveServer] (a [socketserver.TCPServer]) behind a listener:
    its listening socket is open until [server_close]. *)
Record PrimitiveServer := mkPrimitiveServer { server_closed : bool }.

(** The attributes of an [HTTPListener] that its life cycle touches.
    [__init__] sets [sock] to [None] and does not set [running], which
    exists only once [listen] or [stop] assigned it. *)
Record HTTPListener := mkHTTPListener {
  host : string;
  port : Z;
  sock : option PrimitiveServer;
  running : option bool
}.

Definition not_started : exn := RuntimeError "HTTP listener is not started!".

(** [HTTPListener.listen]; [bind_failure] is what creating the
    [PrimitiveServer] raises, if it does (the port is taken, say). *)
Definition listen (bind_failure : option exn) : M HTTPListener unit :=
  try_except
    (fun self =>
       match bind_failure with
       | Some e => (Raise e, self)
       | None =>
           (Return tt,
            mkHTTPListener (host self) (port self)
              (Some (mkPrimitiveServer false)) (Some true))
       end)
    is_Exception
    (fun _ self =>
       (Raise (RuntimeError ("Failed to start HTTP listener on port "
                               +:+ pretty (port self) +:+ "!")), self)).

(** [self.sock.server_close()]: [None] has no such attribute. *)
Definition sock_server_close : M HTTPListener unit :=
  fun self =>
    match sock self with
    | None => (Raise AttributeError, self)
    | Some _ =>
        (Return tt,
         mkHTTPListener (host self) (port self)
           (Some (mkPrimitiveServer true)) (running self))
    end.

(** [HTTPListener.stop] *)
Definition stop : M HTTPListener unit :=
  (fun self =>
     (Return tt, mkHTTPListener (host self) (port self) (sock self) (Some false))) ;;;
  try_except sock_server_close is_Exception (fun _ => raise not_started).

(** [self.sock.accept()]: neither [None] nor a [socketserver.TCPServer]
    has an attribute [accept] (the server's one is [handle_request]). *)
Definition sock_accept : M HTTPListener unit :=
  fun self =>
    match sock self with
    | None => (Raise AttributeError, self)
    | Some _ => (Raise AttributeError, self)
    end.

(** [HTTPListener.loop]:
    [while self.running: try: self.sock.accept() except Exception: self.stop()] *)
Fixpoint loop (fuel : nat) : M HTTPListener unit :=
  fun self =>
    match running self with
    | None => (Raise AttributeError, self)
    | Some false => (Return tt, self)
    | Some true =>
        match fuel with
        | O => (OutOfFuel, self)
        | S fuel' =>
            (try_except sock_accept is_Exception (fun _ => stop) ;;;
             loop fuel') self
        end
    end.

Section Accept.
(** [socketserver]'s [handle_request] on a server that exists: it waits
    for one request and has the handler class serve it. *)
Variable handle_request : M PrimitiveServer unit.

(** [self.sock.handle_request()] *)
Definition sock_handle_request : M HTTPListener unit :=
  fun self =>
    match sock self with
    | None => (Raise AttributeError, self)
    | Some srv =>
        let (r, srv') := handle_request srv in
        (r, mkHTTPListener (host self) (port self) (Some srv') (running self))
    end.

(** [HTTPListener.accept] *)
Definition accept : M HTTPListener unit :=
  try_except sock_handle_request is_Exception (fun _ => raise not_started).

End Accept.
End HTTPListenerMethods.

(* ===================================================================== *)
(** ** FTPClient: connect, close, login                                   *)
(* ===================================================================== *)

Module FTPSessionMethods.

(** What the calls of one session meet in [ftplib]: the exception that
    [connect], [login] (for the given user and password) or [close]
    raises, if any. *)
Record ftplib_session := mkSession {
  connect_failure : option exn;
  login_failure : string -> string -> option exn;
  close_failure : option exn
}.

(** [self.pair], set by [__init__] to [f"{self.host}:{str(self.port)}"]. *)
Definition pair (self : FTPClient) : string :=
  host self +:+ ":" +:+ pretty (port self).

(** [self.username] and [self.password]: [__init__] sets [host], [port],
    [pair], [timeout] and [client], and no method sets another attribute,
    so reading either raises AttributeError. *)
Definition self_username (self : FTPClient) : outcome string := Raise AttributeError.
Definition self_password (self : FTPClient) : outcome string := Raise AttributeError.

(** [FTPClient.connect] *)
Definition connect (env : ftplib_session) (self : FTPClient) : outcome unit :=
  match connect_failure env with
  | None => Return tt
  | Some e =>
      if is_Exception e
      then Raise (RuntimeError ("Connection failed for " +:+ pair self +:+ "!"))
      else Raise e
  end.

(** [FTPClient.close] *)
Definition close (env : ftplib_session) (self : FTPClient) : outcome unit :=
  match close_failure env with
  | None => Return tt
  | Some e =>
      if is_Exception e
      then Raise (RuntimeError ("Socket " +:+ pair self +:+ " is not connected!"))
      else Raise e
  end.

(** [FTPClient.login]: the handler builds its message from
    [self.username], [self.password] and [self.pair]. *)
Definition login (env : ftplib_session) (self : FTPClient)
    (username password : string) : outcome unit :=
  match login_failure env username password with
  | None => Return tt
  | Some e =>
      if is_Exception e then
        match self_username self with
        | Return u =>
            match self_password self with
            | Return p =>
                Raise (RuntimeError ("Authentication via " +:+ u +:+ ":" +:+ p
                                       +:+ " failed for " +:+ pair self +:+ "!"))
            | Raise e' => Raise e'
            | Blocks => Blocks
            | OutOfFuel => OutOfFuel
            end
        | Raise e' => Raise e'
        | Blocks => Blocks
        | OutOfFuel => OutOfFuel
        end
      else Raise e
  end.

End FTPSessionMethods.

(** A listener with two transports: the first on '/a' with the callable 7
    as its callback, the second on '/b' with no callback. *)
Definition two_transports : world :=
  snd (TLVServerHTTPMethods.init None "/b" (fresh_world "/a")).

(* ===================================================================== *)
(** ** What the HTTP server hands to the handlers                         *)
(* ===================================================================== *)

(** [path.lstrip('/')] *)
Fixpoint lstrip_slash (s : string) : string :=
  match s with
  | EmptyString => EmptyString
  | String _ s' => if String.prefix "/" s then lstrip_slash s' else s
  end.

(** The [request.path] a handler sees for the path of the request line:
    [http.server]'s [parse_request] reduces a leading run of slashes to a
    single one
    ([if self.path.startswith('//'): self.path = '/' + self.path.lstrip('/')]). *)
Definition handed_over (raw : string) : string :=
  if String.prefix "//" raw then "/" +:+ lstrip_slash raw else raw.

(** [c.isspace()] for a character of the request line, which the server
    decodes as ISO-8859-1: the characters [str.split()] splits on. *)
Definition is_space (c : Ascii.ascii) : bool :=
  let n := Ascii.nat_of_ascii c in
  (((9 <=? n) && (n <=? 13)) || ((28 <=? n) && (n <=? 32))
   || (n =? 133) || (n =? 160))%nat.

Fixpoint has_space (s : string) : bool :=
  match s with
  | EmptyString => false
  | String c s' => is_space c || has_space s'
  end.

(** The [request.path] of a request whose request line names the path
    [raw], if a request line can name it: [parse_request] takes the path
    as the second word of [requestline.split()], so it is not empty and
    holds no white space, and then reduces its leading slashes. *)
Definition request_path (raw : string) : option string :=
  if has_space raw || bool_decide (raw = ""%string) then None
  else Some (handed_over raw).

(** [name.lower()] on a header name (ASCII letters). *)
Definition ascii_lower (c : Ascii.ascii) : Ascii.ascii :=
  let n := Ascii.nat_of_ascii c in
  if ((65 <=? n) && (n <=? 90))%nat then Ascii.ascii_of_nat (n + 32) else c.

Fixpoint str_lower (s : string) : string :=
  match s with
  | EmptyString => EmptyString
  | String c s' => String (ascii_lower c) (str_lower s')
  end.

(** The request carries no Content-Length header, however its name is
    spelled: [request.headers[...]] compares names with their case
    ignored. *)
Definition no_content_length (hdrs : gmap string string) : Prop :=
  forall k, str_lower k = "content-length"%string -> hdrs !! k = None.

(** The only Content-Length header of the request is the one spelled
    Content-Length. *)
Definition no_other_content_length (hdrs : gmap string string) : Prop :=
  forall k, str_lower k = "content-length"%string ->
            k <> "Content-Length"%string -> hdrs !! k = None.

(* ===================================================================== *)
(** * Properties                                                          *)
(* ===================================================================== *)

(** ** Sequencing *)

Section Sequencing.
Context {St A B : Type}.
Implicit Types (m : M St A) (k : A -> M St B).

(** A sequence that returns went through both of its parts. *)
Lemma bind_returns m k s b s'' :
  bind m k s = (Return b, s'') ->
  exists a s', m s = (Return a, s') /\ k a s' = (Return b, s'').
Proof.
  unfold bind. destruct (m s) as [[a|e| |] s']; intros H; try discriminate.
  exists a, s'. split; [reflexivity | exact H].
Qed.

End Sequencing.

Lemma preserves_ret {St A} (P : St -> Prop) (a : A) : preserves P (ret a).
Proof. intros s r s' H. unfold ret in H. congruence. Qed.

Lemma preserves_bind {St A B} (P : St -> Prop) (m : M St A) (k : A -> M St B) :
  preserves P m -> (forall a, preserves P (k a)) -> preserves P (bind m k).
Proof.
  intros Hm Hk s r s'' H HP. unfold bind in H.
  destruct (m s) as [[a|e| |] s'] eqn:E;
    pose proof (Hm _ _ _ E HP) as HP'; try (simplify_eq; exact HP').
  exact (Hk a _ _ _ H HP').
Qed.

(** ** The 32-bit fields *)

Lemma byte_to_Z_to_byte z : byte_to_Z (Z_to_byte z) = Z.land z 255.
Proof.
  unfold byte_to_Z, Z_to_byte.
  assert (Hr : 0 <= Z.land z 255 < 256).
  { change 255 with (Z.ones 8). rewrite Z.land_ones by lia.
    apply Z.mod_pos_bound. lia. }
  destruct (Byte.of_N (Z.to_N (Z.land z 255))) as [b|] eqn:E.
  - apply Byte.to_of_N in E. rewrite E. lia.
  - apply Byte.of_N_None_iff in E. lia.
Qed.

Lemma testbit_above_32 n i :
  0 <= n < 4294967296 -> 32 <= i -> Z.testbit n i = false.
Proof.
  intros Hn Hi. destruct (Z.eq_dec n 0) as [->|Hz]; [apply Z.bits_0|].
  apply Z.bits_above_log2; [lia|].
  assert (Z.log2 n < 32); [|lia].
  apply Z.log2_lt_pow2; lia.
Qed.

(** [struct.unpack('!I', struct.pack('!I', n))[0] == n] on 32-bit [n]. *)
Lemma unpack_pack_I n : 0 <= n < 4294967296 -> unpack_I (pack_I n) = Some n.
Proof.
  intros Hn. unfold pack_I, unpack_I. rewrite !byte_to_Z_to_byte. f_equal.
  apply Z.bits_inj'. intros i Hi.
  change 255 with (Z.ones 8).
  rewrite !Z.lor_spec, !Z.shiftl_spec, !Z.land_spec by lia.
  destruct (Z_lt_dec i 8); [|destruct (Z_lt_dec i 16); [|destruct (Z_lt_dec i 24);
    [|destruct (Z_lt_dec i 32)]]].
  all: repeat first
    [ rewrite (Z.testbit_neg_r _ (i - 8)) by lia
    | rewrite (Z.testbit_neg_r _ (i - 16)) by lia
    | rewrite (Z.testbit_neg_r _ (i - 24)) by lia
    | rewrite Z.land_spec
    | rewrite Z.shiftr_spec by lia
    | rewrite Z.ones_spec_low by lia
    | rewrite Z.ones_spec_high by lia ].
  all: rewrite ?andb_false_r, ?andb_true_r, ?orb_false_r, ?orb_false_l.
  all: try (f_equal; lia).
  symmetry. apply testbit_above_32; lia.
Qed.

Lemma len_app (a b : bytes) : len (a ++ b) = len a + len b.
Proof. unfold len. rewrite length_app. lia. Qed.

Lemma len_nonneg (b : bytes) : 0 <= len b.
Proof. unfold len. lia. Qed.

(** ** The codec *)

Lemma encode_len type v : len (encode type v) = 8 + len v.
Proof. unfold encode. rewrite !len_app. unfold len at 1 2. simpl. lia. Qed.

Lemma encode_type_field type v : take 4 (encode type v) = pack_I type.
Proof. reflexivity. Qed.

Lemma encode_length_field type v :
  take 4 (drop 4 (encode type v)) = pack_I (len v).
Proof. reflexivity. Qed.

Lemma encode_payload type v : drop 8 (encode type v) = v.
Proof. reflexivity. Qed.

Lemma decode_encode type v :
  0 <= type < 4294967296 -> len v < 4294967296 ->
  decode (encode type v) = inr (mkPacket type v).
Proof.
  intros Ht Hv. pose proof (len_nonneg v) as H0.
  unfold decode. rewrite encode_len.
  destruct (Z.ltb_spec (8 + len v) 8) as [?|_]; [lia|].
  rewrite encode_type_field, encode_length_field, encode_payload.
  rewrite !unpack_pack_I by lia.
  destruct (Z.ltb_spec (8 + len v) (8 + len v)) as [?|_]; [lia|].
  unfold len. rewrite Nat2Z.id, firstn_all. reflexivity.
Qed.

(** C1: for every type in [0, 2^32-1] and every payload (the empty one
    too; its length is an unsigned 32-bit integer, as the data model has
    it), decoding the encoding of (type, payload) yields
    [Packet(type, payload)]; the wire form is the four-byte big-endian
    type, the four-byte big-endian length equal to [len(payload)], then
    the payload, 8 + length bytes in all. *)
Theorem C1_round_trip (type : Z) (v : bytes) :
  0 <= type < 4294967296 -> len v < 4294967296 ->
  decode (encode type v) = inr (mkPacket type v)
  /\ unpack_I (take 4 (encode type v)) = Some type
  /\ unpack_I (take 4 (drop 4 (encode type v))) = Some (len v)
  /\ drop 8 (encode type v) = v
  /\ len (encode type v) = 8 + len v.
Proof.
  intros Ht Hv. pose proof (len_nonneg v).
  split; [apply decode_encode; assumption|].
  rewrite encode_type_field, encode_length_field, encode_payload, encode_len.
  rewrite !unpack_pack_I by lia. done.
Qed.

(** The packet of the end-to-end scenario, type 1 with payload PING. *)
Lemma C1_round_trip_PING :
  let v := [x50; x49; x4e; x47] in
  decode (encode 1 v) = inr (mkPacket 1 v)
  /\ unpack_I (take 4 (encode 1 v)) = Some 1
  /\ unpack_I (take 4 (drop 4 (encode 1 v))) = Some (len v)
  /\ drop 8 (encode 1 v) = v
  /\ len (encode 1 v) = 8 + len v.
Proof.
  apply (C1_round_trip 1 [x50; x49; x4e; x47]); [lia | vm_compute; reflexivity].
Defined.

(** ** TLVClient.close *)

(** C8, as stated, fails: [close] on a client that was never connected,
    and [close] on a client whose socket is already closed, both return
    normally. *)
Lemma C8_close_without_socket_returns :
  close (mkTLVClient None) = (Return tt, mkTLVClient None)
  /\ close (mkTLVClient (Some (mkSocket [] [] [] true true)))
     = (Return tt, mkTLVClient (Some (mkSocket [] [] [] true true))).
Proof. split; reflexivity. Qed.

(** C8 (amended): on a client whose socket is already closed or was never
    connected, [close] raises nothing: it returns normally and leaves the
    client as it was. *)
Theorem C8_close_is_idempotent (self : TLVClient) :
  client self = None \/ (exists s, client self = Some s /\ closed s = true) ->
  close self = (Return tt, self).
Proof.
  destruct self as [[s|]]; simpl; intros [H|[s0 [H Hc]]]; simplify_eq.
  - unfold close, on_client, not_client, sock_close, set_closed. simpl.
    destruct s0 as [r t w b c]. simpl in Hc. subst c. reflexivity.
  - reflexivity.
Qed.

(** [close] on a client that was closed before. *)
Lemma C8_close_twice :
  close (snd (close (connected [] []))) = (Return tt, snd (close (connected [] []))).
Proof.
  apply (C8_close_is_idempotent (snd (close (connected [] [])))).
  right. eexists. split; reflexivity.
Defined.

(** On an open socket [close] closes it, and it never raises. *)
Lemma close_closes s :
  close (mkTLVClient (Some s)) = (Return tt, mkTLVClient (Some (set_closed true s))).
Proof. reflexivity. Qed.

(** ** TLVClient.send and send_raw *)

(** C3 fails on the code: a failed write is not surfaced, whatever its
    errno.  [send] goes on as it does after a would-block, and here
    returns normally once the next write takes the frame. *)
Theorem C3_send_swallows_every_write_failure (errno : Z) :
  send 2 (mkTLVPacket ping_frame)
    (connected [] [SendError errno; Accept 12])
  = (Return tt,
     mkTLVClient (Some (mkSocket [] [] ping_frame true false))).
Proof.
  unfold send, send_raw. simpl.
  unfold bind, try_except, on_client, sock_send. simpl.
  destruct ((errno =? EAGAIN) || (errno =? EWOULDBLOCK)); reflexivity.
Qed.

(** A write failure that persists (here: the socket was closed) is never
    surfaced either: no number of iterations ends the loop. *)
Lemma send_on_closed_socket_never_returns (fuel : nat) (x : byte) (data : bytes) s :
  closed s = true ->
  send_raw fuel (x :: data) (mkTLVClient (Some s))
  = (OutOfFuel, mkTLVClient (Some s)).
Proof.
  intros Hc. unfold send_raw. simpl.
  induction fuel as [|fuel IH]; [reflexivity|].
  simpl. unfold bind at 1, try_except, bind at 1, on_client, sock_send. simpl.
  rewrite Hc. simpl. exact IH.
Qed.

(** However the socket splits the buffer over its writes, and whatever
    failures come between them, [send_raw] returns once all of the buffer
    is on the wire, in order and once. *)
Lemma send_loop_transmits_all : forall script data s fuel,
  closed s = false -> tx s = script ->
  (length data <= capacity script)%nat -> (length script <= fuel)%nat ->
  exists rest,
    send_loop fuel data (mkTLVClient (Some s))
    = (Return tt, mkTLVClient (Some (set_wire (wire s ++ data) (set_tx rest s)))).
Proof.
  induction script as [|ev script IH]; intros data s fuel Hc Htx Hcap Hfuel.
  - destruct data; [|simpl in Hcap; lia].
    exists []. destruct fuel; simpl; unfold ret;
      destruct s; simpl in *; subst; rewrite app_nil_r; reflexivity.
  - destruct data as [|x data].
    { exists (ev :: script). destruct fuel; simpl; unfold ret;
        destruct s; simpl in *; subst; rewrite app_nil_r; reflexivity. }
    destruct fuel as [|fuel]; [simpl in Hfuel; lia|].
    cbn [send_loop]. unfold bind at 1, try_except, bind at 1, on_client, sock_send.
    cbn [client]. rewrite Hc, Htx.
    destruct ev as [n|e].
    + unfold ret at 1. rewrite Nat2Z.id.
      set (sent := Nat.min n (length (x :: data))).
      destruct (IH (drop sent (x :: data))
                  (set_wire (wire s ++ take sent (x :: data)) (set_tx script s)) fuel)
        as [rest Hrest].
      * destruct s; assumption.
      * destruct s; reflexivity.
      * rewrite length_drop. subst sent. cbn [capacity length] in *. lia.
      * simpl in Hfuel. lia.
      * exists rest. rewrite Hrest. destruct s; simpl.
        rewrite <- app_assoc, take_drop. reflexivity.
    + cbn [is_socket_error].
      destruct (IH (x :: data) (set_tx script s) fuel) as [rest Hrest].
      * destruct s; assumption.
      * destruct s; reflexivity.
      * exact Hcap.
      * simpl in Hfuel. lia.
      * exists rest.
        destruct ((e =? EAGAIN) || (e =? EWOULDBLOCK)); unfold ret at 1;
          rewrite Hrest; destruct s; reflexivity.
Qed.

(** [send] on a connected client: the whole frame of the packet goes out,
    whatever the sizes of the partial writes. *)
Corollary send_transmits_packet (packet : TLVPacket) (s : socket) (fuel : nat) :
  closed s = false ->
  (length (buffer packet) <= capacity (tx s))%nat -> (length (tx s) <= fuel)%nat ->
  exists rest,
    send fuel packet (mkTLVClient (Some s))
    = (Return tt,
       mkTLVClient (Some (set_wire (wire s ++ buffer packet) (set_tx rest s)))).
Proof.
  intros Hc Hcap Hfuel.
  exact (send_loop_transmits_all (tx s) (buffer packet) s fuel Hc eq_refl Hcap Hfuel).
Qed.

(** ** TLVClient.read: fragmentation *)

(** C2 fails on the code: when the frame of any packet arrives one byte
    per [recv], a blocking [read] takes one byte for the type and one for
    the length, and [struct.unpack] raises on the one-byte length. *)
Theorem C2_read_raises_on_one_byte_chunks
    (fuel : nat) (type : Z) (v : bytes) :
  fst (read fuel true (connected (one_byte_segments (encode type v)) []))
  = Raise StructError.
Proof. reflexivity. Qed.

Lemma sock_recv_segment (n : nat) c rest s :
  closed s = false -> rx s = map Segment (c :: rest) ->
  sock_recv (Z.of_nat n) s
  = (Return (take n c), set_rx (map Segment (remainder n (c :: rest))) s).
Proof.
  intros Hc Hrx. unfold sock_recv, remainder.
  destruct (Z.ltb_spec (Z.of_nat n) 0) as [?|_]; [lia|].
  rewrite Hc, Hrx. cbn [map].
  unfold len. rewrite Nat2Z.id.
  destruct (Z.leb_spec (Z.of_nat (length c)) (Z.of_nat n)) as [Hle|Hgt].
  - destruct (Nat.leb_spec (length c) n) as [_|?]; [|lia].
    rewrite take_ge by lia. reflexivity.
  - destruct (Nat.leb_spec (length c) n) as [?|_]; [lia|]. reflexivity.
Qed.

Lemma remainder_concat n chunks :
  delivers n chunks = true ->
  take n (concat chunks) = take n (hd [] chunks)
  /\ concat (remainder n chunks) = drop n (concat chunks).
Proof.
  destruct chunks as [|c rest]; [discriminate|]. cbn [delivers hd remainder concat].
  intros H. apply Nat.leb_le in H. split.
  - rewrite take_app_le by lia. reflexivity.
  - destruct (Nat.leb_spec (length c) n) as [Hle|Hgt].
    + rewrite drop_app_ge by lia. replace (n - length c)%nat with 0%nat by lia.
      reflexivity.
    + cbn [concat]. rewrite drop_app_le by lia. reflexivity.
Qed.

Lemma remainder_nonempty n chunks :
  Forall (fun c : bytes => c <> []) chunks ->
  Forall (fun c : bytes => c <> []) (remainder n chunks).
Proof.
  destruct chunks as [|c rest]; [constructor|]. intros H. inversion H; subst.
  cbn [remainder]. destruct (Nat.leb_spec (length c) n) as [Hle|Hgt]; [assumption|].
  constructor; [|assumption].
  intros E. apply (f_equal length) in E. rewrite length_drop in E. simpl in E. lia.
Qed.

Lemma remainder_length n chunks : (length (remainder n chunks) <= length chunks)%nat.
Proof.
  destruct chunks as [|c rest]; [reflexivity|]. cbn [remainder].
  destruct (length c <=? n)%nat; simpl; lia.
Qed.

(** The payload loop gathers the segments whatever their sizes. *)
Lemma read_value_gathers : forall chunks value s fuel,
  Forall (fun c : bytes => c <> []) chunks ->
  closed s = false -> rx s = map Segment chunks ->
  (length chunks <= fuel)%nat ->
  read_value fuel (len (concat chunks)) value (mkTLVClient (Some s))
  = (Return (value ++ concat chunks), mkTLVClient (Some (set_rx [] s))).
Proof.
  induction chunks as [|c rest IH]; intros value s fuel Hne Hc Hrx Hfuel.
  - destruct fuel; simpl; unfold ret; rewrite app_nil_r;
      destruct s; simpl in *; subst; reflexivity.
  - inversion Hne as [|? ? Hc0 Hrest]; subst.
    assert (Hpos : 0 < len (concat (c :: rest))).
    { cbn [concat]. rewrite len_app. pose proof (len_nonneg (concat rest)).
      unfold len at 1. destruct c; [congruence|simpl; lia]. }
    destruct fuel as [|fuel]; [simpl in Hfuel; lia|].
    cbn [read_value].
    destruct (Z.ltb_spec 0 (len (concat (c :: rest)))) as [_|?]; [|lia].
    unfold bind at 1, read_raw, not_client, on_client. cbn [client].
    unfold sock_recv.
    destruct (Z.ltb_spec (len (concat (c :: rest))) 0) as [?|_]; [lia|].
    rewrite Hc, Hrx. cbn [map].
    cbn [concat]. rewrite len_app.
    destruct (Z.leb_spec (len c) (len c + len (concat rest))) as [_|?];
      [|pose proof (len_nonneg (concat rest)); lia].
    replace (len c + len (concat rest) - len c) with (len (concat rest)) by lia.
    rewrite (IH (value ++ c) (set_rx (map Segment rest) s) fuel);
      [ | assumption | exact Hc | reflexivity | simpl in Hfuel; lia ].
    rewrite <- app_assoc. destruct s; reflexivity.
Qed.

(** A frame whose two header words are not split by the segmentation is
    read whole, however its payload is fragmented, with [block] true or
    false. *)
Lemma read_frame_header_unsplit (type : Z) (v : bytes) (chunks : list bytes)
    (s : socket) (block : bool) (fuel : nat) :
  0 <= type < 4294967296 -> len v < 4294967296 ->
  concat chunks = encode type v ->
  Forall (fun c : bytes => c <> []) chunks ->
  header_unsplit chunks = true ->
  closed s = false -> rx s = map Segment chunks ->
  (length chunks <= fuel)%nat ->
  read fuel block (mkTLVClient (Some s))
  = (Return (Some (mkTLVPacket (encode type v))),
     mkTLVClient (Some (set_rx [] (set_blocking true s)))).
Proof.
  intros Ht Hv Hcat Hne Hhdr Hc Hrx Hfuel.
  apply andb_prop in Hhdr as [Hd1 Hd2].
  destruct chunks as [|c1 rest]; [discriminate|].
  destruct (remainder_concat 4 _ Hd1) as [Ht1 Hr1].
  destruct (remainder_concat 4 _ Hd2) as [Ht2 Hr2].
  rewrite Hr1, Hcat in Ht2, Hr2. rewrite Hcat in Ht1.
  rewrite drop_drop in Hr2. cbn [hd] in Ht1.
  set (chunks1 := remainder 4 (c1 :: rest)) in *.
  destruct chunks1 as [|c2 rest2] eqn:E1; [discriminate|]. cbn [hd] in Ht2.
  set (chunks2 := remainder 4 (c2 :: rest2)) in *.
  change (4 + 4)%nat with 8%nat in Hr2. rewrite encode_payload in Hr2.
  rewrite encode_type_field in Ht1. rewrite encode_length_field in Ht2.
  assert (Hne1 : Forall (fun c : bytes => c <> []) (c2 :: rest2)).
  { rewrite <- E1. apply remainder_nonempty, Hne. }
  assert (Hne2 : Forall (fun c : bytes => c <> []) chunks2)
    by apply remainder_nonempty, Hne1.
  assert (Hl1 : (length (c2 :: rest2) <= length (c1 :: rest))%nat).
  { rewrite <- E1. apply remainder_length. }
  assert (Hl2 : (length chunks2 <= length (c2 :: rest2))%nat)
    by apply remainder_length.
  unfold read, not_client. cbn [client].
  unfold bind at 1, on_client at 1. cbn [client].
  unfold sock_setblocking at 1. rewrite Hc.
  unfold bind at 1, try_except, bind at 1, read_raw at 1, not_client.
  cbn [client]. unfold on_client at 1. cbn [client].
  rewrite (sock_recv_segment 4 c1 rest) by (destruct s; assumption).
  fold chunks1. rewrite E1. rewrite <- Ht1.
  unfold ret at 1. unfold bind at 1, on_client at 1. cbn [client].
  unfold sock_setblocking. cbn [closed set_rx set_blocking]. rewrite Hc.
  unfold bind at 1, read_raw at 1, not_client. cbn [client].
  unfold on_client. cbn [client].
  rewrite (sock_recv_segment 4 c2 rest2) by (exact Hc || reflexivity).
  fold chunks2. rewrite <- Ht2.
  rewrite unpack_pack_I by (pose proof (len_nonneg v); lia).
  unfold bind at 1. rewrite <- Hr2.
  rewrite read_value_gathers; [ | assumption | exact Hc | reflexivity | lia ].
  unfold ret. rewrite Hr2. reflexivity.
Qed.

(** ** TLVClient.read: the non-blocking probe *)

(** [read] sets the blocking mode before anything else, so the mode the
    socket was left in does not matter to it. *)
Lemma read_ignores_previous_mode fuel block flag s :
  closed s = false ->
  read fuel block (mkTLVClient (Some (set_blocking flag s)))
  = read fuel block (mkTLVClient (Some s)).
Proof.
  intros Hc. destruct s as [r t w b c]. cbn [closed] in Hc. subst c.
  reflexivity.
Qed.

(** C4: on a socket with nothing to receive, [read(block=False)] returns
    [None] at once and takes no byte: the socket is as before but for its
    mode, a later [read] meets what it would have met without the probe,
    and a frame that arrives afterwards is read whole. *)
Theorem C4_nonblocking_probe (fuel : nat) (s : socket) :
  closed s = false -> rx s = [] ->
  read fuel false (mkTLVClient (Some s))
  = (Return None, mkTLVClient (Some (set_blocking false s)))
  /\ (forall evs fuel' block,
        read fuel' block (mkTLVClient (Some (arrive evs (set_blocking false s))))
        = read fuel' block (mkTLVClient (Some (arrive evs s))))
  /\ (forall type v chunks fuel' block,
        0 <= type < 4294967296 -> len v < 4294967296 ->
        concat chunks = encode type v ->
        Forall (fun c : bytes => c <> []) chunks ->
        header_unsplit chunks = true ->
        (length chunks <= fuel')%nat ->
        fst (read fuel' block
               (mkTLVClient (Some (arrive (map Segment chunks) (set_blocking false s)))))
        = Return (Some (mkTLVPacket (encode type v)))).
Proof.
  intros Hc Hrx. split; [|split].
  - unfold read, not_client. cbn [client].
    unfold bind at 1, on_client at 1. cbn [client].
    unfold sock_setblocking. rewrite Hc.
    unfold bind at 1, try_except, bind at 1, read_raw, not_client.
    cbn [client]. unfold on_client. cbn [client].
    unfold sock_recv. cbn [closed rx blocking set_blocking]. rewrite Hc, Hrx.
    reflexivity.
  - intros evs fuel' block.
    change (arrive evs (set_blocking false s))
      with (set_blocking false (arrive evs s)).
    apply read_ignores_previous_mode. exact Hc.
  - intros type v chunks fuel' block Ht Hv Hcat Hne Hhdr Hfuel.
    erewrite read_frame_header_unsplit; try eassumption; [reflexivity|].
    cbn [rx arrive set_rx set_blocking]. rewrite Hrx. reflexivity.
Qed.

(** The probe on an idle connection, then PING arriving in three segments
    (the header, then the payload in two parts). *)
Lemma C4_probe_then_PING :
  let s := mkSocket [] [] [] true false in
  read 0 false (mkTLVClient (Some s))
  = (Return None, mkTLVClient (Some (set_blocking false s)))
  /\ (forall evs fuel' block,
        read fuel' block (mkTLVClient (Some (arrive evs (set_blocking false s))))
        = read fuel' block (mkTLVClient (Some (arrive evs s))))
  /\ (forall type v chunks fuel' block,
        0 <= type < 4294967296 -> len v < 4294967296 ->
        concat chunks = encode type v ->
        Forall (fun c : bytes => c <> []) chunks ->
        header_unsplit chunks = true ->
        (length chunks <= fuel')%nat ->
        fst (read fuel' block
               (mkTLVClient (Some (arrive (map Segment chunks) (set_blocking false s)))))
        = Return (Some (mkTLVPacket (encode type v)))).
Proof.
  apply (C4_nonblocking_probe 0 (mkSocket [] [] [] true false)); reflexivity.
Defined.

Example probe_then_PING_in_segments :
  let probed := snd (read 0 false (connected [] [])) in
  let later := on_client (fun s =>
      (Return tt, arrive [Segment (take 8 ping_frame); Segment [x50; x49];
                          Segment [x4e; x47]] s)) probed in
  fst (read 3 false (snd later)) = Return (Some (mkTLVPacket ping_frame)).
Proof. reflexivity. Qed.

(** ** TLVClient.read: the blocking mode on return *)

Lemma sock_recv_blocking n s r s' :
  sock_recv n s = (r, s') -> blocking s' = blocking s.
Proof.
  unfold sock_recv. intros H. destruct s as [r0 t0 w0 b0 c0]; simpl in H.
  repeat case_match; simplify_eq; reflexivity.
Qed.

Lemma read_raw_preserves_blocking n : preserves is_blocking (read_raw n).
Proof.
  intros self r self' H [s [Hs Hb]].
  unfold read_raw, on_client, not_client, raise in H.
  rewrite Hs in H. destruct (sock_recv n s) as [r0 s0] eqn:E.
  simplify_eq. apply sock_recv_blocking in E.
  exists s0. split; [reflexivity | congruence].
Qed.

Lemma read_value_preserves_blocking fuel : forall length value,
  preserves is_blocking (read_value fuel length value).
Proof.
  induction fuel as [|fuel IH]; intros length value; simpl;
    destruct (0 <? length); try apply preserves_ret.
  - intros self r self' H. congruence.
  - apply preserves_bind; [apply read_raw_preserves_blocking | intros chunk; apply IH].
Qed.

Lemma setblocking_true_blocking self self' :
  on_client (sock_setblocking true) self = (Return tt, self') -> is_blocking self'.
Proof.
  unfold on_client, sock_setblocking. intros H.
  destruct (client self) as [s|]; [|discriminate].
  destruct (closed s); simplify_eq.
  eexists. split; reflexivity.
Qed.

(** C9: whenever [read] returns a packet, with [block] true or false, the
    socket is in blocking mode on return. *)
Theorem C9_read_leaves_socket_blocking
    (fuel : nat) (block : bool) (self self' : TLVClient) (p : TLVPacket) :
  read fuel block self = (Return (Some p), self') ->
  exists s', client self' = Some s' /\ blocking s' = true.
Proof.
  unfold read. destruct (not_client self); [discriminate|]. intros H.
  apply bind_returns in H as ([] & self1 & _ & H).
  apply bind_returns in H as (first & self2 & _ & H).
  destruct first as [buf|]; [|discriminate].
  apply bind_returns in H as ([] & self3 & Hmode & H).
  apply setblocking_true_blocking in Hmode.
  apply bind_returns in H as (l & self4 & Hlen & H).
  destruct (unpack_I l) as [n|]; [|discriminate].
  apply bind_returns in H as (v & self5 & Hval & H).
  unfold ret in H. simplify_eq.
  eapply read_value_preserves_blocking; [exact Hval|].
  eapply read_raw_preserves_blocking; [exact Hlen|]. exact Hmode.
Qed.

(** A non-blocking [read] that finds the PING frame ready. *)
Lemma C9_read_PING_leaves_socket_blocking :
  exists s',
    client (snd (read 1 false (connected [Segment ping_frame] []))) = Some s'
    /\ blocking s' = true.
Proof.
  apply (C9_read_leaves_socket_blocking 1 false
           (connected [Segment ping_frame] []) _ (mkTLVPacket ping_frame)).
  vm_compute. reflexivity.
Defined.

(** ** HTTPListener and TLVServerHTTP *)

Module HTTP.
Import TLVServerHTTPMethods.

Lemma handlers_of_GET i : handlers_of i !! "GET" = Some (TLV_get i).
Proof. reflexivity. Qed.

Lemma handlers_of_POST i : handlers_of i !! "POST" = Some (TLV_post i).
Proof. reflexivity. Qed.

Lemma handlers_of_nonempty i : not_method (Some (handlers_of i)) = false.
Proof.
  unfold not_method. apply bool_decide_eq_false. apply insert_non_empty.
Qed.

Lemma bound_set_transport w i t t' :
  bound w i t -> urlpath t' = urlpath t -> bound (set_transport i t' w) i t'.
Proof.
  intros [Ht Hm] Hu. split.
  - cbn [transports set_transport]. apply lookup_insert_eq.
  - cbn [methods set_transport]. rewrite Hu. exact Hm.
Qed.

(** [__init__] registers the new instance. *)
Lemma init_bound cb p w :
  exists i w',
    init cb p w = (Return i, w') /\ bound w' i (mkTLVServerHTTP cb p []).
Proof.
  eexists _, _. split; [reflexivity|]. split.
  - cbn [transports set_methods set_transport]. apply lookup_insert_eq.
  - cbn [methods set_methods set_transport urlpath]. apply lookup_insert_eq.
Qed.

Lemma send_bound w i t p :
  bound w i t ->
  send i p w
  = (Return tt,
     set_transport i (mkTLVServerHTTP (callback t) (urlpath t) (egress t ++ buffer p)) w).
Proof.
  intros [Ht Hm]. unfold send, bind, get_self. rewrite Ht. reflexivity.
Qed.

Section Dispatch.
Variable int_of_str : string -> option Z.

(** A GET for the path of a registered transport reaches its handler,
    which answers 200 with the egress buffer and empties it. *)
Lemma do_GET_bound w i t hdrs body :
  bound w i t ->
  do_GET int_of_str (w, incoming (urlpath t) hdrs body [])
  = (Return tt,
     (set_transport i (mkTLVServerHTTP (callback t) (urlpath t) []) w,
      mkRequest (urlpath t) hdrs body [200] (egress t) [])).
Proof.
  intros [Ht Hm]. unfold do_GET, dispatch, incoming. cbn [path].
  rewrite Hm, handlers_of_nonempty. cbn [mbind option_bind].
  rewrite handlers_of_GET. cbn [call_handler].
  unfold get, bind at 1, on_world at 1, get_self. rewrite Ht.
  cbn [path]. rewrite String.eqb_refl. reflexivity.
Qed.

(** A GET for a path that is not registered is answered 404 by the
    listener; no handler runs. *)
Lemma do_GET_unregistered w p hdrs body :
  methods w !! p = None ->
  do_GET int_of_str (w, incoming p hdrs body [])
  = (Return tt, (w, mkRequest p hdrs body [404] [] [])).
Proof.
  intros Hm. unfold do_GET, dispatch, incoming. cbn [path]. rewrite Hm.
  reflexivity.
Qed.

(** C5: after [send(p1)] and [send(p2)] on a transport with nothing
    queued, a GET to the registered path is answered 200 with the two
    serialized packets in order, and the next GET, no send in between, is
    answered with an empty body. *)
Theorem C5_egress_isolation (w : world) (i : nat) (t : TLVServerHTTP)
    (p1 p2 : TLVPacket) (hdrs hdrs' : gmap string string) (body body' : bytes) :
  bound w i t -> egress t = [] ->
  exists w1 w2 w3 w4 r r',
    send i p1 w = (Return tt, w1)
    /\ send i p2 w1 = (Return tt, w2)
    /\ do_GET int_of_str (w2, incoming (urlpath t) hdrs body []) = (Return tt, (w3, r))
    /\ status r = [200]
    /\ wfile r = buffer p1 ++ buffer p2
    /\ do_GET int_of_str (w3, incoming (urlpath t) hdrs' body' []) = (Return tt, (w4, r'))
    /\ status r' = [200]
    /\ wfile r' = [].
Proof.
  intros Hb He.
  pose proof (send_bound w i t p1 Hb) as H1.
  set (t1 := mkTLVServerHTTP (callback t) (urlpath t) (egress t ++ buffer p1)) in *.
  assert (Hb1 : bound (set_transport i t1 w) i t1)
    by (apply (bound_set_transport w i t); [exact Hb | reflexivity]).
  pose proof (send_bound _ i t1 p2 Hb1) as H2.
  set (t2 := mkTLVServerHTTP (callback t1) (urlpath t1) (egress t1 ++ buffer p2)) in *.
  assert (Hb2 : bound (set_transport i t2 (set_transport i t1 w)) i t2)
    by (apply (bound_set_transport _ i t1); [exact Hb1 | reflexivity]).
  pose proof (do_GET_bound _ i t2 hdrs body Hb2) as H3.
  set (t3 := mkTLVServerHTTP (callback t2) (urlpath t2) []) in *.
  assert (Hb3 : bound (set_transport i t3 (set_transport i t2 (set_transport i t1 w))) i t3)
    by (apply (bound_set_transport _ i t2); [exact Hb2 | reflexivity]).
  pose proof (do_GET_bound _ i t3 hdrs' body' Hb3) as H4.
  eexists _, _, _, _, _, _.
  split; [exact H1|]. split; [exact H2|]. split; [exact H3|].
  split; [reflexivity|]. split.
  { cbn [wfile egress t2 t1]. rewrite He. reflexivity. }
  split; [exact H4|]. split; reflexivity.
Qed.

(** [set_urlpath] moves the registration to ['/' + urlpath]. *)
Lemma set_urlpath_bound w i t new :
  bound w i t ->
  let t' := mkTLVServerHTTP (callback t) ("/" +:+ new) (egress t) in
  let w' := set_methods (<["/" +:+ new := handlers_of i]> (delete (urlpath t) (methods w)))
              (set_transport i t' w) in
  set_urlpath i new w = (Return tt, w') /\ bound w' i t'.
Proof.
  intros [Ht Hm] t' w'. split.
  - unfold set_urlpath, bind at 1, get_self. rewrite Ht.
    unfold bind at 1, methods_pop. rewrite Hm. reflexivity.
  - split.
    + cbn [transports set_methods set_transport]. apply lookup_insert_eq.
    + cbn [methods set_methods urlpath]. apply lookup_insert_eq.
Qed.

Lemma handed_over_unchanged p :
  String.prefix "//" p = false -> handed_over p = p.
Proof. intros H. unfold handed_over. rewrite H. reflexivity. Qed.

Lemma request_path_slash new :
  String.prefix "/" new = false -> has_space new = false ->
  request_path ("/" +:+ new) = Some ("/" +:+ new).
Proof.
  intros Hp Hs. unfold request_path.
  change (has_space ("/" +:+ new)) with (has_space new). rewrite Hs.
  change (bool_decide ("/" +:+ new = ""%string)) with false. cbn [orb].
  f_equal. apply handed_over_unchanged. exact Hp.
Qed.

(** C6 (amended): for a [newPath] that does not begin with '/' and holds
    no white space, [set_urlpath(newPath)] moves the registration to
    ['/' + newPath] with the same GET and POST handlers; the server hands
    a request for ['/' + newPath] to the listener under that very path,
    and the GET is served by that GET handler; no registration remains
    for the old path when it differs from ['/' + newPath], and a GET to it
    (an old path that does not begin with '//', so that the server hands
    it over as it is) is left to the listener's default (404). *)
Theorem C6_set_urlpath_rebinds (w : world) (i : nat) (t : TLVServerHTTP)
    (new : string) (hdrs : gmap string string) (body : bytes) :
  bound w i t ->
  String.prefix "/" new = false -> has_space new = false ->
  exists w',
    set_urlpath i new w = (Return tt, w')
    /\ methods w !! urlpath t = Some (handlers_of i)
    /\ methods w' !! ("/" +:+ new) = Some (handlers_of i)
    /\ handlers_of i !! "GET" = Some (TLV_get i)
    /\ handlers_of i !! "POST" = Some (TLV_post i)
    /\ request_path ("/" +:+ new) = Some ("/" +:+ new)
    /\ do_GET int_of_str (w', incoming ("/" +:+ new) hdrs body [])
       = (Return tt,
          (set_transport i (mkTLVServerHTTP (callback t) ("/" +:+ new) []) w',
           mkRequest ("/" +:+ new) hdrs body [200] (egress t) []))
    /\ (urlpath t <> "/" +:+ new ->
        methods w' !! urlpath t = None
        /\ (String.prefix "//" (urlpath t) = false ->
            do_GET int_of_str (w', incoming (handed_over (urlpath t)) hdrs body [])
            = (Return tt, (w', mkRequest (urlpath t) hdrs body [404] [] [])))).
Proof.
  intros Hb Hnew Hsp. destruct (set_urlpath_bound w i t new Hb) as [Hset Hb'].
  eexists. split; [exact Hset|].
  split; [exact (proj2 Hb)|].
  split; [exact (proj2 Hb')|].
  split; [reflexivity|]. split; [reflexivity|].
  split; [exact (request_path_slash new Hnew Hsp)|].
  split.
  - apply (do_GET_bound _ i _ hdrs body Hb').
  - intros Hne.
    assert (Hnone : methods (set_methods
              (<["/" +:+ new := handlers_of i]> (delete (urlpath t) (methods w)))
              (set_transport i (mkTLVServerHTTP (callback t) ("/" +:+ new) (egress t)) w))
            !! urlpath t = None).
    { cbn [methods set_methods]. rewrite lookup_insert_ne by congruence.
      apply lookup_delete_eq. }
    split; [exact Hnone|]. intros Hold.
    rewrite (handed_over_unchanged _ Hold).
    apply do_GET_unregistered. exact Hnone.
Qed.

(** C7: a POST to the registered path reads [Content-Length] bytes of the
    body (all of them when the body holds that many); whether the write
    of the egress content succeeds or raises, the handler returns
    normally, and a registered callback is called once, with the packet
    made of the bytes read. *)
Theorem C7_post_delivers (w : world) (i : nat) (t : TLVServerHTTP)
    (hdrs : gmap string string) (body : bytes) (v : string) (n : Z)
    (egress_write : option exn) (later : list (option exn)) :
  bound w i t ->
  hdrs !! "Content-Length" = Some v -> int_of_str v = Some n -> 0 <= n ->
  let data := take (Z.to_nat n) body in
  exists w' r',
    do_POST int_of_str
      (w, incoming (urlpath t) hdrs body (None :: egress_write :: later))
    = (Return tt, (w', r'))
    /\ rfile r' = drop (Z.to_nat n) body
    /\ (n <= len body -> len data = n)
    /\ status r' = [200]
    /\ wfile r' = match egress_write with None => egress t | Some _ => [] end
    /\ transports w' = transports w
    /\ calls w' = calls w ++
         match callback t with
         | Some cb => [(cb, mkTLVPacket data)]
         | None => []
         end.
Proof.
  intros [Ht Hm] Hh Hint Hn data.
  unfold do_POST, dispatch, incoming. cbn [path].
  rewrite Hm, handlers_of_nonempty. cbn [mbind option_bind].
  rewrite handlers_of_POST. cbn [call_handler].
  unfold post, bind at 1, on_world at 1, get_self. rewrite Ht.
  cbn [path]. rewrite String.eqb_refl. cbn [negb].
  unfold bind at 1, on_request at 1, content_length. cbn [headers].
  rewrite Hh, Hint.
  unfold bind at 1, on_request at 1, rfile_read. cbn [rfile].
  destruct (Z.ltb_spec n 0) as [?|_]; [lia|].
  fold data.
  assert (Hlen : n <= len body -> len data = n).
  { intros Hle. unfold data, len in *. rewrite length_take. lia. }
  destruct egress_write as [e|]; destruct (callback t) as [cb|];
    (eexists _, _; split; [reflexivity|]);
    cbn [rfile status wfile transports calls log_call];
    rewrite ?app_nil_r; auto 10.
Qed.

End Dispatch.

Lemma fresh_world_bound p :
  bound (fresh_world p) 0 (mkTLVServerHTTP (Some 7%nat) p []).
Proof.
  split.
  - reflexivity.
  - cbn. apply lookup_insert_eq.
Qed.

(** Two sends on a new transport, then two GETs. *)
Lemma C5_two_sends_then_two_GETs :
  exists w1 w2 w3 w4 r r',
    send 0 (mkTLVPacket ping_frame) (fresh_world "/") = (Return tt, w1)
    /\ send 0 (mkTLVPacket ACK_frame) w1 = (Return tt, w2)
    /\ do_GET int_of_digits (w2, incoming "/" ∅ [] []) = (Return tt, (w3, r))
    /\ status r = [200]
    /\ wfile r = ping_frame ++ ACK_frame
    /\ do_GET int_of_digits (w3, incoming "/" ∅ [] []) = (Return tt, (w4, r'))
    /\ status r' = [200]
    /\ wfile r' = [].
Proof.
  apply (C5_egress_isolation int_of_digits (fresh_world "/") 0
           (mkTLVServerHTTP (Some 7%nat) "/" [])
           (mkTLVPacket ping_frame) (mkTLVPacket ACK_frame) ∅ ∅ [] []).
  - apply fresh_world_bound.
  - reflexivity.
Defined.

(** C6, as stated, fails.  After [set_urlpath('new')] on a transport
    bound to '/old', a GET to 'new' is answered 404 (the registration is
    at '/new'); after [set_urlpath('new')] on a transport bound to '/new',
    a GET to the old path is still served; after [set_urlpath('/x')] the
    registration is at '//x', a path the server hands over as '/x', so
    that a GET to it is answered 404 as well; and after
    [set_urlpath('a b')] the registration is at a path that no request
    line can name; and a transport bound to '//a' and moved with
    [set_urlpath('a')] is served on a GET to its old path, which the
    server hands over as '/a'. *)
Lemma C6_new_path_unhandled_old_path_served :
  (let w := snd (set_urlpath 0 "new" (fresh_world "/old")) in
   methods w !! "new" = None
   /\ request_path "new" = Some "new"%string
   /\ status (snd (snd (do_GET int_of_digits (w, incoming "new" ∅ [] [])))) = [404])
  /\ (let w := snd (set_urlpath 0 "new" (fresh_world "/new")) in
      request_path "/new" = Some "/new"%string
      /\ status (snd (snd (do_GET int_of_digits (w, incoming "/new" ∅ [] [])))) = [200])
  /\ (let w := snd (set_urlpath 0 "/x" (fresh_world "/old")) in
      methods w !! "//x" = Some (handlers_of 0)
      /\ request_path "//x" = Some "/x"%string
      /\ status (snd (snd (do_GET int_of_digits (w, incoming "/x" ∅ [] [])))) = [404])
  /\ (let w := snd (set_urlpath 0 "a b" (fresh_world "/old")) in
      methods w !! "/a b" = Some (handlers_of 0)
      /\ request_path "/a b" = None)
  /\ (let w := snd (set_urlpath 0 "a" (fresh_world "//a")) in
      request_path "//a" = Some "/a"%string
      /\ status (snd (snd (do_GET int_of_digits (w, incoming "/a" ∅ [] [])))) = [200]).
Proof. vm_compute. repeat split. Qed.

(** A transport bound to '/old' and moved with [set_urlpath('new')]: the
    GET to '/new' is served and the GET to '/old' is not. *)
Lemma C6_rebind_old_to_new :
  exists w',
    set_urlpath 0 "new" (fresh_world "/old") = (Return tt, w')
    /\ methods (fresh_world "/old") !! "/old" = Some (handlers_of 0)
    /\ methods w' !! "/new" = Some (handlers_of 0)
    /\ handlers_of 0 !! "GET" = Some (TLV_get 0)
    /\ handlers_of 0 !! "POST" = Some (TLV_post 0)
    /\ request_path "/new" = Some "/new"%string
    /\ do_GET int_of_digits (w', incoming "/new" ∅ [] [])
       = (Return tt,
          (set_transport 0 (mkTLVServerHTTP (Some 7%nat) "/new" []) w',
           mkRequest "/new" ∅ [] [200] [] []))
    /\ methods w' !! "/old" = None
    /\ do_GET int_of_digits (w', incoming (handed_over "/old") ∅ [] [])
       = (Return tt, (w', mkRequest "/old" ∅ [] [404] [] [])).
Proof.
  destruct (C6_set_urlpath_rebinds int_of_digits (fresh_world "/old") 0
              (mkTLVServerHTTP (Some 7%nat) "/old" []) "new" ∅ []
              (fresh_world_bound "/old") eq_refl eq_refl)
    as (w' & Hset & Hold & Hnew & Hget & Hpost & Hpath & Hserved & Hrest).
  destruct (Hrest ltac:(discriminate)) as [Hnone H404].
  exists w'. repeat split; try assumption. exact (H404 eq_refl).
Defined.

(** The POST of the HTTP tunnel scenario, on a connection that breaks
    while the egress content is written. *)
Lemma C7_post_ACK_on_broken_connection :
  let data := take (Z.to_nat 11) ACK_frame in
  exists w' r',
    do_POST int_of_digits
      (fresh_world "/",
       incoming "/" {[ "Content-Length" := "11" ]} ACK_frame
         (None :: Some (OSError EPIPE) :: []))
    = (Return tt, (w', r'))
    /\ rfile r' = drop (Z.to_nat 11) ACK_frame
    /\ (11 <= len ACK_frame -> len data = 11)
    /\ status r' = [200]
    /\ wfile r' = []
    /\ transports w' = transports (fresh_world "/")
    /\ calls w' = calls (fresh_world "/") ++ [(7%nat, mkTLVPacket data)].
Proof.
  apply (C7_post_delivers int_of_digits (fresh_world "/") 0
           (mkTLVServerHTTP (Some 7%nat) "/" [])
           {[ "Content-Length" := "11" ]} ACK_frame "11" 11
           (Some (OSError EPIPE)) []).
  - apply fresh_world_bound.
  - reflexivity.
  - reflexivity.
  - lia.
Defined.

End HTTP.

(** ** FTPClient.get_file *)

Module FTP_get_file.
Import FTPClientMethods.

(** [retrbinary] with [BytesIO.write] as its callback leaves the blocks,
    joined, in the buffer. *)
Lemma feed_write blocks : forall fp,
  feed BytesIO_write blocks fp = (Return tt, fp ++ concat blocks).
Proof.
  induction blocks as [|b rest IH]; intros fp; simpl.
  - unfold ret. rewrite app_nil_r. reflexivity.
  - unfold bind, BytesIO_write. rewrite IH, <- app_assoc. reflexivity.
Qed.

(** C10: [get_file] never raises.  It returns the contents retrieved when
    the transfer succeeds, and the empty byte string when it fails,
    whatever the exception and however much had arrived. *)
Theorem C10_get_file_never_raises (self : FTPClient) (remote_file : string) :
  get_file self remote_file
  = Return (match retr (ftp_client self) ("RETR " +:+ remote_file) with
            | (blocks, None) => concat blocks
            | (_, Some _) => []
            end).
Proof.
  unfold get_file, try_except, retrbinary.
  destruct (retr (ftp_client self) ("RETR " +:+ remote_file)) as [blocks [e|]].
  - unfold bind at 1, bind at 1. rewrite feed_write. reflexivity.
  - unfold bind at 1, bind at 1. rewrite feed_write. reflexivity.
Qed.

End FTP_get_file.

(** ** TLVClient: further properties of send_raw and read *)

(** X1: on an open socket, [send_raw] returns once every byte of the
    buffer is on the wire, exactly once and in order, however the socket
    splits the buffer over its writes and whatever failures come between
    them, provided the writes that follow have room for the buffer. *)
Theorem send_raw_survives_partial_writes (data : bytes) (s : socket) (fuel : nat) :
  closed s = false ->
  (length data <= capacity (tx s))%nat -> (length (tx s) <= fuel)%nat ->
  exists rest,
    send_raw fuel data (mkTLVClient (Some s))
    = (Return tt, mkTLVClient (Some (set_wire (wire s ++ data) (set_tx rest s)))).
Proof.
  intros Hc Hcap Hfuel.
  exact (send_loop_transmits_all (tx s) data s fuel Hc eq_refl Hcap Hfuel).
Qed.

(** PING sent over a socket that takes three bytes, would block, fails
    with EPIPE and then takes the rest. *)
Lemma send_raw_PING_in_pieces :
  exists rest,
    send_raw 4 ping_frame
      (connected [] [Accept 3; SendError EAGAIN; SendError EPIPE; Accept 100])
    = (Return tt,
       mkTLVClient (Some (set_wire ([] ++ ping_frame)
         (set_tx rest
            (mkSocket [] [Accept 3; SendError EAGAIN; SendError EPIPE; Accept 100]
               [] true false))))).
Proof.
  apply (send_raw_survives_partial_writes ping_frame
           (mkSocket [] [Accept 3; SendError EAGAIN; SendError EPIPE; Accept 100]
              [] true false) 4).
  - reflexivity.
  - vm_compute. lia.
  - vm_compute. lia.
Defined.

(** One turn of the loop of [send_raw] on a buffer that is not empty:
    either the socket blocks for ever, or the loop goes on with what is
    left of the buffer after some of its first bytes went out. *)
Lemma send_loop_step (x : byte) (data : bytes) (s : socket) :
  (forall fuel,
     send_loop (S fuel) (x :: data) (mkTLVClient (Some s))
     = (Blocks, mkTLVClient (Some s)))
  \/ exists j s1,
       (forall fuel,
          send_loop (S fuel) (x :: data) (mkTLVClient (Some s))
          = send_loop fuel (drop j (x :: data)) (mkTLVClient (Some s1)))
       /\ wire s1 = wire s ++ take j (x :: data)
       /\ rx s1 = rx s /\ blocking s1 = blocking s /\ closed s1 = closed s.
Proof.
  destruct s as [r t w b c].
  destruct c.
  { right. exists 0%nat, (mkSocket r t w b true).
    cbn [wire rx blocking closed take]. rewrite app_nil_r. repeat split. }
  destruct t as [|[n|e] script].
  - destruct b.
    + left. reflexivity.
    + right. exists 0%nat, (mkSocket r [] w false false).
      cbn [wire rx blocking closed take]. rewrite app_nil_r. repeat split.
  - right. exists (Nat.min n (length (x :: data))),
      (mkSocket r script (w ++ take (Nat.min n (length (x :: data))) (x :: data)) b false).
    repeat split. intros fuel. cbn [send_loop].
    unfold bind at 1, try_except, bind at 1, on_client, sock_send.
    cbn [client closed tx]. unfold ret at 1. rewrite Nat2Z.id. reflexivity.
  - right. exists 0%nat, (mkSocket r script w b false).
    cbn [wire rx blocking closed take]. rewrite app_nil_r. repeat split.
    intros fuel. cbn [send_loop].
    unfold bind at 1, try_except, bind at 1, on_client, sock_send.
    cbn [client closed tx is_socket_error].
    destruct ((e =? EAGAIN) || (e =? EWOULDBLOCK)); reflexivity.
Qed.

Lemma send_loop_wire fuel : forall data s r self',
  send_loop fuel data (mkTLVClient (Some s)) = (r, self') ->
  exists s' k,
    self' = mkTLVClient (Some s')
    /\ wire s' = wire s ++ take k data
    /\ (r = Return tt -> wire s' = wire s ++ data)
    /\ rx s' = rx s /\ blocking s' = blocking s /\ closed s' = closed s.
Proof.
  induction fuel as [|fuel IH]; intros data s r self' H.
  - exists s, 0%nat. destruct data; simpl in H; unfold ret in H; simplify_eq;
      rewrite ?app_nil_r; repeat split; try reflexivity. discriminate.
  - destruct data as [|x data].
    { exists s, 0%nat. simpl in H. unfold ret in H. simplify_eq.
      rewrite ?app_nil_r. repeat split; reflexivity. }
    destruct (send_loop_step x data s) as [Hb | (j & s1 & Hstep & Hw & Hrx & Hbl & Hcl)].
    + rewrite Hb in H. simplify_eq. exists s, 0%nat.
      rewrite app_nil_r. repeat split; try reflexivity. discriminate.
    + rewrite Hstep in H.
      destruct (IH _ _ _ _ H) as (s' & k & -> & Hw' & Hr' & Hrx' & Hbl' & Hcl').
      exists s', (j + k)%nat. split; [reflexivity|].
      split; [|split; [|repeat split; congruence]].
      * rewrite Hw', Hw, <- app_assoc, take_take_drop. reflexivity.
      * intros Hret. rewrite (Hr' Hret), Hw, <- app_assoc, take_drop. reflexivity.
Qed.

(** X2: however [send_raw] ends (it returns, blocks, or is still
    retrying), the bytes it put on the wire are the first bytes of the
    buffer, in order and none twice, and all of them when it returns; it
    takes nothing from the receive side and changes neither the blocking
    mode nor the closed flag. *)
Theorem send_raw_writes_a_prefix (fuel : nat) (data : bytes) (self self' : TLVClient)
    (s : socket) (r : outcome unit) :
  client self = Some s ->
  send_raw fuel data self = (r, self') ->
  exists s' k,
    client self' = Some s'
    /\ wire s' = wire s ++ take k data
    /\ (r = Return tt -> wire s' = wire s ++ data)
    /\ rx s' = rx s /\ blocking s' = blocking s /\ closed s' = closed s.
Proof.
  intros Hs H. destruct self as [c]. cbn [client] in Hs. subst c.
  unfold send_raw, not_client in H. cbn [client] in H.
  destruct (send_loop_wire _ _ _ _ _ H) as (s' & k & -> & Hrest).
  exists s', k. split; [reflexivity | exact Hrest].
Qed.

(** A send that blocks after three bytes of PING went out. *)
Lemma send_raw_PING_blocks_after_three_bytes :
  exists s' k,
    client (snd (send_raw 5 ping_frame (connected [] [Accept 3]))) = Some s'
    /\ wire s' = [] ++ take k ping_frame
    /\ (fst (send_raw 5 ping_frame (connected [] [Accept 3])) = Return tt ->
        wire s' = [] ++ ping_frame)
    /\ rx s' = [] /\ blocking s' = true /\ closed s' = false.
Proof.
  apply (send_raw_writes_a_prefix 5 ping_frame (connected [] [Accept 3]) _
           (mkSocket [] [Accept 3] [] true false)).
  - reflexivity.
  - apply surjective_pairing.
Defined.

(** X3: a client is not usable after [close], and does not say so with
    the RuntimeError of a missing socket: [read] raises OSError(EBADF),
    and [send_raw] of a buffer that is not empty swallows that error on
    every turn of its loop, so it neither returns nor raises; closing
    again is allowed. *)
Theorem use_after_close (s : socket) (fuel : nat) (block : bool)
    (x : byte) (data : bytes) :
  let closed_client := snd (close (mkTLVClient (Some s))) in
  read fuel block closed_client = (Raise (OSError EBADF), closed_client)
  /\ send_raw fuel (x :: data) closed_client = (OutOfFuel, closed_client)
  /\ close closed_client = (Return tt, closed_client).
Proof.
  cbn zeta. rewrite close_closes. cbn [snd]. split; [reflexivity|]. split.
  - apply send_on_closed_socket_never_returns. reflexivity.
  - reflexivity.
Qed.

(** ** TLVClient.read: what a returned packet holds *)

Lemma byte_to_Z_range b : 0 <= byte_to_Z b < 256.
Proof. unfold byte_to_Z. pose proof (Byte.to_N_bounded b). lia. Qed.

(** [struct.unpack('!I', b)] succeeds on four bytes only, and gives an
    unsigned number. *)
Lemma unpack_I_Some b n : unpack_I b = Some n -> length b = 4%nat /\ 0 <= n.
Proof.
  destruct b as [|b3 [|b2 [|b1 [|b0 [|? ?]]]]]; try discriminate.
  intros H. injection H as <-. split; [reflexivity|].
  pose proof (byte_to_Z_range b3). pose proof (byte_to_Z_range b2).
  pose proof (byte_to_Z_range b1). pose proof (byte_to_Z_range b0).
  repeat (apply Z.lor_nonneg; split); try apply Z.shiftl_nonneg; lia.
Qed.

(** [recv(size)] never returns more than [size] bytes. *)
Lemma sock_recv_bound size s b s' :
  sock_recv size s = (Return b, s') -> len b <= size.
Proof.
  unfold sock_recv. destruct (Z.ltb_spec size 0) as [?|Hs]; [discriminate|].
  destruct (closed s); [discriminate|].
  destruct (rx s) as [|[c|e] rest]; [destruct (blocking s); discriminate| |discriminate].
  destruct (Z.leb_spec (len c) size) as [Hle|Hgt]; intros H; simplify_eq; [exact Hle|].
  unfold len in *. rewrite length_take. lia.
Qed.

Lemma read_raw_bound size self b self' :
  read_raw size self = (Return b, self') -> len b <= size.
Proof.
  unfold read_raw, on_client, raise. destruct (not_client self); [discriminate|].
  destruct (client self) as [s|]; [|discriminate].
  destruct (sock_recv size s) as [r s'] eqn:E. intros H. simplify_eq.
  exact (sock_recv_bound _ _ _ _ E).
Qed.

(** The payload loop returns with exactly [length] bytes gathered. *)
Lemma read_value_exact fuel : forall length value self out self',
  0 <= length ->
  read_value fuel length value self = (Return out, self') ->
  exists v, out = value ++ v /\ len v = length.
Proof.
  induction fuel as [|fuel IH]; intros length value self out self' Hl H;
    simpl in H; destruct (Z.ltb_spec 0 length) as [Hpos|Hle]; try discriminate.
  - unfold ret in H. simplify_eq. exists []. rewrite app_nil_r.
    split; [reflexivity | unfold len; simpl; lia].
  - apply bind_returns in H as (chunk & self1 & Hraw & H).
    apply read_raw_bound in Hraw.
    assert (Hrest : 0 <= length - len chunk) by lia.
    destruct (IH _ _ _ _ _ Hrest H) as (v & -> & Hv).
    exists (chunk ++ v). rewrite app_assoc, len_app. split; [reflexivity | lia].
  - unfold ret in H. simplify_eq. exists []. rewrite app_nil_r.
    split; [reflexivity | unfold len; simpl; lia].
Qed.

(** X4: a packet that [read] returns is never short: its buffer is what
    the first [recv(4)] gave (four bytes at most), then a four-byte length
    word, then exactly as many payload bytes as that word announces. *)
Theorem read_returns_whole_payload
    (fuel : nat) (block : bool) (self self' : TLVClient) (p : TLVPacket) :
  read fuel block self = (Return (Some p), self') ->
  exists first length_word value n,
    buffer p = first ++ length_word ++ value
    /\ len first <= 4
    /\ unpack_I length_word = Some n
    /\ len value = n.
Proof.
  unfold read. destruct (not_client self); [discriminate|]. intros H.
  apply bind_returns in H as ([] & self1 & _ & H).
  apply bind_returns in H as (first & self2 & Hfirst & H).
  destruct first as [buf|]; [|discriminate].
  assert (Hbuf : len buf <= 4).
  { unfold try_except, bind in Hfirst.
    destruct (read_raw 4 self1) as [[b|e| |] self1'] eqn:E; try discriminate.
    - unfold ret in Hfirst. simplify_eq. exact (read_raw_bound _ _ _ _ E).
    - destruct (is_socket_error e); [|discriminate].
      destruct e; try (unfold ret in Hfirst; simplify_eq; unfold len; simpl; lia).
      destruct ((errno =? EAGAIN) || (errno =? EWOULDBLOCK));
        unfold ret in Hfirst; simplify_eq. unfold len; simpl; lia. }
  apply bind_returns in H as ([] & self3 & _ & H).
  apply bind_returns in H as (l & self4 & _ & H).
  destruct (unpack_I l) as [n|] eqn:Hn; [|discriminate].
  apply bind_returns in H as (v & self5 & Hval & H).
  unfold ret in H. simplify_eq.
  destruct (unpack_I_Some _ _ Hn) as [_ Hn0].
  destruct (read_value_exact _ _ _ _ _ _ Hn0 Hval) as (v' & -> & Hv').
  exists buf, l, v', n. cbn [buffer app]. rewrite <- app_assoc. auto.
Qed.

(** A non-blocking [read] that finds the PING frame ready. *)
Lemma read_PING_returns_whole_payload :
  exists first length_word value n,
    buffer (mkTLVPacket ping_frame) = first ++ length_word ++ value
    /\ len first <= 4
    /\ unpack_I length_word = Some n
    /\ len value = n.
Proof.
  apply (read_returns_whole_payload 1 false
           (connected [Segment ping_frame] [])
           (snd (read 1 false (connected [Segment ping_frame] [])))
           (mkTLVPacket ping_frame)).
  vm_compute. reflexivity.
Defined.

(** ** TLVClient.read: frames that arrive in segments *)

(** The payload loop takes the segments of the payload and leaves what
    comes after them. *)
Lemma read_value_gathers_before : forall chunks later value s fuel,
  Forall (fun c : bytes => c <> []) chunks ->
  closed s = false -> rx s = map Segment chunks ++ later ->
  (length chunks <= fuel)%nat ->
  read_value fuel (len (concat chunks)) value (mkTLVClient (Some s))
  = (Return (value ++ concat chunks), mkTLVClient (Some (set_rx later s))).
Proof.
  induction chunks as [|c rest IH]; intros later value s fuel Hne Hc Hrx Hfuel.
  - destruct fuel; simpl; unfold ret; rewrite app_nil_r;
      destruct s; simpl in *; subst; reflexivity.
  - inversion Hne as [|? ? Hc0 Hrest]; subst.
    assert (Hpos : 0 < len (concat (c :: rest))).
    { cbn [concat]. rewrite len_app. pose proof (len_nonneg (concat rest)).
      unfold len at 1. destruct c; [congruence|simpl; lia]. }
    destruct fuel as [|fuel]; [simpl in Hfuel; lia|].
    cbn [read_value].
    destruct (Z.ltb_spec 0 (len (concat (c :: rest)))) as [_|?]; [|lia].
    unfold bind at 1, read_raw, not_client, on_client. cbn [client].
    unfold sock_recv.
    destruct (Z.ltb_spec (len (concat (c :: rest))) 0) as [?|_]; [lia|].
    rewrite Hc, Hrx. cbn [map app].
    cbn [concat]. rewrite len_app.
    destruct (Z.leb_spec (len c) (len c + len (concat rest))) as [_|?];
      [|pose proof (len_nonneg (concat rest)); lia].
    replace (len c + len (concat rest) - len c) with (len (concat rest)) by lia.
    rewrite (IH later (value ++ c) (set_rx (map Segment rest ++ later) s) fuel);
      [ | assumption | exact Hc | reflexivity | simpl in Hfuel; lia ].
    rewrite <- app_assoc. destruct s; reflexivity.
Qed.

Lemma sock_recv_segment_before (n : nat) c rest later s :
  closed s = false -> rx s = map Segment (c :: rest) ++ later ->
  sock_recv (Z.of_nat n) s
  = (Return (take n c), set_rx (map Segment (remainder n (c :: rest)) ++ later) s).
Proof.
  intros Hc Hrx. unfold sock_recv, remainder.
  destruct (Z.ltb_spec (Z.of_nat n) 0) as [?|_]; [lia|].
  rewrite Hc, Hrx. cbn [map app].
  unfold len. rewrite Nat2Z.id.
  destruct (Z.leb_spec (Z.of_nat (length c)) (Z.of_nat n)) as [Hle|Hgt].
  - destruct (Nat.leb_spec (length c) n) as [_|?]; [|lia].
    rewrite take_ge by lia. reflexivity.
  - destruct (Nat.leb_spec (length c) n) as [?|_]; [lia|]. reflexivity.
Qed.

(** What [read] does once the first [try] is over with [buf] in hand,
    when the length word and the payload arrive in [chunks]. *)
Lemma read_length_and_payload (buf length_word v : bytes) (chunks : list bytes)
    (later : list rx_event) (s : socket) (fuel : nat) :
  unpack_I length_word = Some (len v) ->
  concat chunks = length_word ++ v ->
  Forall (fun c : bytes => c <> []) chunks ->
  delivers 4 chunks = true ->
  closed s = false -> rx s = map Segment chunks ++ later ->
  (length chunks <= fuel)%nat ->
  (on_client (sock_setblocking true);;;
   length <- read_raw 4;;
   match unpack_I length with
   | Some length0 =>
       value <- read_value fuel length0 [];;
       ret (Some {| buffer := (buf ++ length) ++ value |})
   | None => raise StructError
   end)%py (mkTLVClient (Some s))
  = (Return (Some (mkTLVPacket (buf ++ length_word ++ v))),
     mkTLVClient (Some (set_rx later (set_blocking true s)))).
Proof.
  intros Hn Hcat Hne Hd Hc Hrx Hfuel.
  destruct (unpack_I_Some _ _ Hn) as [Hl4 _].
  destruct chunks as [|c rest]; [discriminate|].
  destruct (remainder_concat 4 _ Hd) as [Ht Hr]. cbn [hd] in Ht.
  rewrite Hcat in Ht, Hr.
  rewrite take_app_length' in Ht by (symmetry; exact Hl4).
  rewrite drop_app_length' in Hr by (symmetry; exact Hl4).
  assert (Hne' : Forall (fun c : bytes => c <> []) (remainder 4 (c :: rest)))
    by apply remainder_nonempty, Hne.
  pose proof (remainder_length 4 (c :: rest)) as Hlen.
  unfold bind at 1, on_client at 1. cbn [client].
  unfold sock_setblocking. rewrite Hc.
  unfold bind at 1, read_raw at 1, not_client. cbn [client].
  unfold on_client. cbn [client].
  rewrite (sock_recv_segment_before 4 c rest later) by (exact Hc || exact Hrx).
  rewrite <- Ht, Hn.
  unfold bind at 1. rewrite <- Hr.
  rewrite (read_value_gathers_before _ later);
    [ | assumption | exact Hc | reflexivity | lia ].
  unfold ret. rewrite Hr, <- app_assoc. reflexivity.
Qed.

(** X5: when the segments that arrive hold one frame (a four-byte type
    word, a length word and as many payload bytes as it announces) and do
    not split the two header words, [read] returns the packet made of
    exactly these bytes, however the payload is fragmented, with [block]
    true or false; it leaves what arrived after the frame untouched and
    the socket in blocking mode. *)
Theorem read_gathers_one_frame (type_word length_word v : bytes)
    (chunks : list bytes) (later : list rx_event) (s : socket)
    (block : bool) (fuel : nat) :
  length type_word = 4%nat ->
  unpack_I length_word = Some (len v) ->
  concat chunks = type_word ++ length_word ++ v ->
  Forall (fun c : bytes => c <> []) chunks ->
  header_unsplit chunks = true ->
  closed s = false -> rx s = map Segment chunks ++ later ->
  (length chunks <= fuel)%nat ->
  read fuel block (mkTLVClient (Some s))
  = (Return (Some (mkTLVPacket (type_word ++ length_word ++ v))),
     mkTLVClient (Some (set_rx later (set_blocking true s)))).
Proof.
  intros Ht4 Hn Hcat Hne Hhdr Hc Hrx Hfuel.
  apply andb_prop in Hhdr as [Hd1 Hd2].
  destruct chunks as [|c1 rest]; [discriminate|].
  destruct (remainder_concat 4 _ Hd1) as [Ht1 Hr1]. cbn [hd] in Ht1.
  rewrite Hcat in Ht1, Hr1.
  rewrite take_app_length' in Ht1 by (symmetry; exact Ht4).
  rewrite drop_app_length' in Hr1 by (symmetry; exact Ht4).
  assert (Hne1 : Forall (fun c : bytes => c <> []) (remainder 4 (c1 :: rest)))
    by apply remainder_nonempty, Hne.
  pose proof (remainder_length 4 (c1 :: rest)) as Hl1.
  unfold read, not_client. cbn [client].
  unfold bind at 1, on_client at 1. cbn [client].
  unfold sock_setblocking at 1. rewrite Hc.
  unfold bind at 1, try_except, bind at 1, read_raw at 1, not_client.
  cbn [client]. unfold on_client at 1. cbn [client].
  rewrite (sock_recv_segment_before 4 c1 rest later) by (exact Hc || exact Hrx).
  rewrite <- Ht1. unfold ret at 1.
  rewrite (read_length_and_payload type_word length_word v
             (remainder 4 (c1 :: rest)) later _ fuel Hn Hr1 Hne1 Hd2);
    [ | exact Hc | reflexivity | lia ].
  destruct s; reflexivity.
Qed.

(** PING with the header in one segment and the payload in two, and the
    first byte of the next frame already there. *)
Lemma read_gathers_PING :
  read 3 true
    (connected (map Segment [take 8 ping_frame; [x50; x49]; [x4e; x47]]
                ++ [Segment [x00]]) [])
  = (Return (Some (mkTLVPacket (take 4 ping_frame ++ take 4 (drop 4 ping_frame) ++ PING))),
     mkTLVClient (Some (set_rx [Segment [x00]] (set_blocking true
       (mkSocket (map Segment [take 8 ping_frame; [x50; x49]; [x4e; x47]]
                  ++ [Segment [x00]]) [] [] true false))))).
Proof.
  apply (read_gathers_one_frame (take 4 ping_frame) (take 4 (drop 4 ping_frame)) PING
           [take 8 ping_frame; [x50; x49]; [x4e; x47]] [Segment [x00]]
           (mkSocket (map Segment [take 8 ping_frame; [x50; x49]; [x4e; x47]]
                       ++ [Segment [x00]]) [] [] true false) true 3).
  - reflexivity.
  - reflexivity.
  - reflexivity.
  - repeat constructor; discriminate.
  - reflexivity.
  - reflexivity.
  - reflexivity.
  - vm_compute. lia.
Defined.

(** X6: a failure of the first [recv] other than would-block is neither
    raised nor does it end [read]: the handler falls through with an empty
    buffer, so [read] takes the next four bytes for the length word and
    returns a packet without a type word. *)
Theorem read_swallows_first_recv_failure (errno : Z) (length_word v : bytes)
    (chunks : list bytes) (later : list rx_event) (s : socket)
    (block : bool) (fuel : nat) :
  errno <> EAGAIN ->
  unpack_I length_word = Some (len v) ->
  concat chunks = length_word ++ v ->
  Forall (fun c : bytes => c <> []) chunks ->
  delivers 4 chunks = true ->
  closed s = false -> rx s = RecvError errno :: map Segment chunks ++ later ->
  (length chunks <= fuel)%nat ->
  read fuel block (mkTLVClient (Some s))
  = (Return (Some (mkTLVPacket (length_word ++ v))),
     mkTLVClient (Some (set_rx later (set_blocking true s)))).
Proof.
  intros He Hn Hcat Hne Hd Hc Hrx Hfuel.
  unfold read, not_client. cbn [client].
  unfold bind at 1, on_client at 1. cbn [client].
  unfold sock_setblocking at 1. rewrite Hc.
  unfold bind at 1, try_except, bind at 1, read_raw at 1, not_client.
  cbn [client]. unfold on_client at 1. cbn [client].
  unfold sock_recv at 1. cbn [closed rx set_blocking Z.ltb Z.compare]. rewrite Hc, Hrx.
  cbn [is_socket_error].
  replace ((errno =? EAGAIN) || (errno =? EWOULDBLOCK)) with false
    by (symmetry; apply orb_false_iff; split; apply Z.eqb_neq; exact He).
  unfold ret at 1.
  rewrite (read_length_and_payload [] length_word v chunks later _ fuel Hn Hcat Hne Hd);
    [ | exact Hc | reflexivity | exact Hfuel ].
  destruct s; reflexivity.
Qed.

(** A connection reset (errno 104) met before the length word and payload
    of PING. *)
Lemma read_after_reset_returns_headless_PING :
  read 1 true
    (connected (RecvError 104 :: map Segment [drop 4 ping_frame] ++ []) [])
  = (Return (Some (mkTLVPacket (take 4 (drop 4 ping_frame) ++ PING))),
     mkTLVClient (Some (set_rx [] (set_blocking true
       (mkSocket (RecvError 104 :: map Segment [drop 4 ping_frame] ++ []) [] [] true false))))).
Proof.
  apply (read_swallows_first_recv_failure 104 (take 4 (drop 4 ping_frame)) PING
           [drop 4 ping_frame] []
           (mkSocket (RecvError 104 :: map Segment [drop 4 ping_frame] ++ []) [] [] true false)
           true 1).
  - discriminate.
  - reflexivity.
  - reflexivity.
  - repeat constructor; discriminate.
  - reflexivity.
  - reflexivity.
  - reflexivity.
  - vm_compute. lia.
Defined.

(** X7: [read(block=False)] is non-blocking for its first [recv] only.
    When at most four bytes are ready and nothing else, it takes them,
    switches the socket to blocking mode and waits for the length word
    instead of returning [None]. *)
Theorem nonblocking_read_waits_for_length (b : bytes) (s : socket) (fuel : nat) :
  closed s = false -> rx s = [Segment b] -> len b <= 4 ->
  read fuel false (mkTLVClient (Some s))
  = (Blocks, mkTLVClient (Some (set_rx [] (set_blocking true s)))).
Proof.
  intros Hc Hrx Hb.
  assert (Hle : (len b <=? 4) = true) by (apply Z.leb_le; exact Hb).
  destruct s as [r t w bl c]. cbn [closed rx] in Hc, Hrx. subst c r.
  unfold read, not_client. cbn [client].
  unfold bind at 1, on_client at 1. cbn [client].
  unfold sock_setblocking at 1. cbn [closed].
  unfold bind at 1, try_except, bind at 1, read_raw at 1, not_client.
  cbn [client]. unfold on_client at 1. cbn [client].
  unfold sock_recv at 1. cbn [closed rx set_blocking Z.ltb Z.compare].
  rewrite Hle. reflexivity.
Qed.

(** Only the type word of PING is there yet. *)
Lemma nonblocking_read_waits_after_type_word :
  read 1 false (connected [Segment (take 4 ping_frame)] [])
  = (Blocks,
     mkTLVClient (Some (set_rx [] (set_blocking true
       (mkSocket [Segment (take 4 ping_frame)] [] [] true false))))).
Proof.
  apply (nonblocking_read_waits_for_length (take 4 ping_frame)
           (mkSocket [Segment (take 4 ping_frame)] [] [] true false) 1).
  - reflexivity.
  - reflexivity.
  - vm_compute. discriminate.
Defined.

(** ** TLVServerHTTP: further properties *)

Module HTTP_transport.
Import TLVServerHTTPMethods.

Section Dispatch.
Variable int_of_str : string -> option Z.

Lemma send_each_bound packets : forall w i t,
  bound w i t ->
  exists w',
    send_each i packets w = (Return tt, w')
    /\ methods w' = methods w
    /\ bound w' i (mkTLVServerHTTP (callback t) (urlpath t)
                     (egress t ++ concat (map buffer packets))).
Proof.
  induction packets as [|p rest IH]; intros w i t Hb.
  - exists w. cbn [send_each map concat]. rewrite app_nil_r.
    split; [reflexivity|]. split; [reflexivity|]. destruct t; exact Hb.
  - cbn [send_each]. unfold bind. rewrite (HTTP.send_bound w i t p Hb).
    set (t1 := mkTLVServerHTTP (callback t) (urlpath t) (egress t ++ buffer p)).
    assert (Hb1 : bound (set_transport i t1 w) i t1)
      by (apply (HTTP.bound_set_transport w i t); [exact Hb | reflexivity]).
    destruct (IH _ i t1 Hb1) as (w' & Hsend & Hm & Hb').
    exists w'. split; [exact Hsend|]. split; [exact Hm|].
    cbn [map concat]. rewrite app_assoc. exact Hb'.
Qed.

(** X8: packets sent one after the other are queued in that order behind
    what was already queued, and the next GET to the registered path
    delivers the whole queue in one body with status 200. *)
Theorem sends_queue_in_order (w : world) (i : nat) (t : TLVServerHTTP)
    (packets : list TLVPacket) (hdrs : gmap string string) (body : bytes) :
  bound w i t ->
  exists w1 w2 r,
    send_each i packets w = (Return tt, w1)
    /\ do_GET int_of_str (w1, incoming (urlpath t) hdrs body []) = (Return tt, (w2, r))
    /\ status r = [200]
    /\ wfile r = egress t ++ concat (map buffer packets)
    /\ transports w2 !! i = Some (mkTLVServerHTTP (callback t) (urlpath t) []).
Proof.
  intros Hb. destruct (send_each_bound packets w i t Hb) as (w1 & Hsend & _ & Hb1).
  pose proof (HTTP.do_GET_bound int_of_str _ i _ hdrs body Hb1) as Hget.
  eexists _, _, _. split; [exact Hsend|]. split; [exact Hget|].
  split; [reflexivity|]. split; [reflexivity|].
  cbn [transports set_transport]. apply lookup_insert_eq.
Qed.

(** X9: two transports on one listener do not see each other's packets:
    a packet sent on one is not in the body of a GET to the other's path,
    and that GET leaves the first one's queue as it was. *)
Theorem transports_are_isolated (w : world) (i j : nat) (ti tj : TLVServerHTTP)
    (p : TLVPacket) (hdrs : gmap string string) (body : bytes) :
  bound w i ti -> bound w j tj -> i <> j ->
  exists w1 w2 r,
    send i p w = (Return tt, w1)
    /\ do_GET int_of_str (w1, incoming (urlpath tj) hdrs body []) = (Return tt, (w2, r))
    /\ wfile r = egress tj
    /\ transports w2 !! i
       = Some (mkTLVServerHTTP (callback ti) (urlpath ti) (egress ti ++ buffer p)).
Proof.
  intros Hi Hj Hne.
  pose proof (HTTP.send_bound w i ti p Hi) as Hsend.
  set (ti' := mkTLVServerHTTP (callback ti) (urlpath ti) (egress ti ++ buffer p)) in *.
  assert (Hj1 : bound (set_transport i ti' w) j tj).
  { destruct Hj as [Ht Hm]. split.
    - cbn [transports set_transport]. rewrite lookup_insert_ne by exact Hne. exact Ht.
    - exact Hm. }
  pose proof (HTTP.do_GET_bound int_of_str _ j tj hdrs body Hj1) as Hget.
  eexists _, _, _. split; [exact Hsend|]. split; [exact Hget|].
  split; [reflexivity|].
  cbn [transports set_transport].
  rewrite lookup_insert_ne by congruence. apply lookup_insert_eq.
Qed.

Lemma close_bound w i t :
  bound w i t ->
  close i w = (Return tt, set_methods (delete (urlpath t) (methods w)) w).
Proof.
  intros [Ht Hm]. unfold close, bind, get_self, methods_pop. rewrite Ht, Hm.
  reflexivity.
Qed.

(** X10: [close] removes the registration and nothing else: afterwards a
    GET to the path is answered 404 by the listener, the transport still
    holds what was queued (and [send] still queues more), but a second
    [close] and a [set_urlpath] both raise KeyError for the path and
    change nothing. *)
Theorem close_unregisters (w : world) (i : nat) (t : TLVServerHTTP)
    (p : TLVPacket) (new : string) (hdrs : gmap string string) (body : bytes) :
  bound w i t ->
  exists w',
    close i w = (Return tt, w')
    /\ methods w' !! urlpath t = None
    /\ transports w' = transports w
    /\ do_GET int_of_str (w', incoming (urlpath t) hdrs body [])
       = (Return tt, (w', mkRequest (urlpath t) hdrs body [404] [] []))
    /\ close i w' = (Raise (KeyError (urlpath t)), w')
    /\ set_urlpath i new w' = (Raise (KeyError (urlpath t)), w')
    /\ send i p w'
       = (Return tt,
          set_transport i
            (mkTLVServerHTTP (callback t) (urlpath t) (egress t ++ buffer p)) w').
Proof.
  intros Hb. pose proof (close_bound w i t Hb) as Hclose.
  destruct Hb as [Ht Hm].
  set (w' := set_methods (delete (urlpath t) (methods w)) w) in *.
  assert (Hnone : methods w' !! urlpath t = None)
    by (cbn [methods w' set_methods]; apply lookup_delete_eq).
  assert (Ht' : transports w' !! i = Some t) by exact Ht.
  exists w'. split; [exact Hclose|]. split; [exact Hnone|].
  split; [reflexivity|].
  split; [apply HTTP.do_GET_unregistered; exact Hnone|].
  split; [|split].
  - unfold close, bind, get_self, methods_pop. rewrite Ht', Hnone. reflexivity.
  - unfold set_urlpath, bind at 1, get_self. rewrite Ht'.
    unfold bind at 1, methods_pop. rewrite Hnone. reflexivity.
  - unfold send, bind, get_self. rewrite Ht'. reflexivity.
Qed.

(** X11: a second transport created on a path that is taken replaces the
    registration of the first ([dict.update] overwrites); when the first
    one is closed it removes the path, and with it the registration of
    the second, which is then unreachable although it was never closed. *)
Theorem second_transport_takes_over_the_path
    (w : world) (cb1 cb2 : option nat) (p : string)
    (hdrs : gmap string string) (body : bytes) :
  exists i j w1 w2 w3,
    init cb1 p w = (Return i, w1)
    /\ init cb2 p w1 = (Return j, w2)
    /\ i <> j
    /\ methods w2 !! p = Some (handlers_of j)
    /\ close i w2 = (Return tt, w3)
    /\ transports w3 !! j = Some (mkTLVServerHTTP cb2 p [])
    /\ do_GET int_of_str (w3, incoming p hdrs body [])
       = (Return tt, (w3, mkRequest p hdrs body [404] [] [])).
Proof.
  set (i := fresh (dom (transports w))).
  set (t1 := mkTLVServerHTTP cb1 p []).
  set (w1 := set_methods (<[p := handlers_of i]> (methods w)) (set_transport i t1 w)).
  set (j := fresh (dom (transports w1))).
  set (t2 := mkTLVServerHTTP cb2 p []).
  set (w2 := set_methods (<[p := handlers_of j]> (methods w1)) (set_transport j t2 w1)).
  assert (Hij : i <> j).
  { intros E. pose proof (is_fresh (dom (transports w1))) as Hf. fold j in Hf.
    apply Hf. rewrite <- E. apply elem_of_dom.
    cbn [transports w1 set_methods set_transport]. rewrite lookup_insert_eq. eauto. }
  assert (Hi2 : transports w2 !! i = Some t1).
  { cbn [transports w2 w1 set_methods set_transport].
    rewrite lookup_insert_ne by congruence. apply lookup_insert_eq. }
  assert (Hm2 : methods w2 !! p = Some (handlers_of j))
    by (cbn [methods w2 set_methods]; apply lookup_insert_eq).
  set (w3 := set_methods (delete p (methods w2)) w2).
  assert (Hnone : methods w3 !! p = None)
    by (cbn [methods w3 set_methods]; apply lookup_delete_eq).
  exists i, j, w1, w2, w3.
  split; [reflexivity|]. split; [reflexivity|]. split; [exact Hij|].
  split; [exact Hm2|]. split; [|split].
  - unfold close, bind, get_self, methods_pop. rewrite Hi2. cbn [urlpath t1].
    rewrite Hm2. reflexivity.
  - cbn [transports w3 w2 set_methods set_transport]. apply lookup_insert_eq.
  - apply HTTP.do_GET_unregistered. exact Hnone.
Qed.

(** X12: a GET whose response cannot be written raises to the listener,
    and the queue is not emptied.  When the status line went out and the
    body did not, the request has status 200 and no body; when the status
    line itself failed, nothing was sent. *)
Theorem failed_GET_keeps_the_queue (w : world) (i : nat) (t : TLVServerHTTP)
    (hdrs : gmap string string) (body : bytes) (e : exn) (later : list (option exn)) :
  bound w i t ->
  do_GET int_of_str (w, incoming (urlpath t) hdrs body (None :: Some e :: later))
  = (Raise e, (w, mkRequest (urlpath t) hdrs body [200] [] later))
  /\ do_GET int_of_str (w, incoming (urlpath t) hdrs body (Some e :: later))
     = (Raise e, (w, mkRequest (urlpath t) hdrs body [] [] later)).
Proof.
  intros [Ht Hm].
  split; unfold do_GET, dispatch, incoming; cbn [path];
    rewrite Hm, HTTP.handlers_of_nonempty; cbn [mbind option_bind];
    rewrite HTTP.handlers_of_GET; cbn [call_handler];
    unfold get, bind at 1, on_world at 1, get_self; rewrite Ht;
    cbn [path]; rewrite String.eqb_refl; reflexivity.
Qed.

(** A POST on a connection that stays healthy. *)
Lemma do_POST_bound w i t hdrs body v n :
  bound w i t ->
  hdrs !! "Content-Length" = Some v -> int_of_str v = Some n -> 0 <= n ->
  do_POST int_of_str (w, incoming (urlpath t) hdrs body [])
  = (Return tt,
     (match callback t with
      | Some cb => log_call cb (mkTLVPacket (take (Z.to_nat n) body)) w
      | None => w
      end,
      mkRequest (urlpath t) hdrs (drop (Z.to_nat n) body) [200] (egress t) [])).
Proof.
  intros [Ht Hm] Hh Hint Hn.
  unfold do_POST, dispatch, incoming. cbn [path].
  rewrite Hm, HTTP.handlers_of_nonempty. cbn [mbind option_bind].
  rewrite HTTP.handlers_of_POST. cbn [call_handler].
  unfold post, bind at 1, on_world at 1, get_self. rewrite Ht.
  cbn [path]. rewrite String.eqb_refl. cbn [negb].
  unfold bind at 1, on_request at 1, content_length. cbn [headers].
  rewrite Hh, Hint.
  unfold bind at 1, on_request at 1, rfile_read. cbn [rfile].
  destruct (Z.ltb_spec n 0) as [?|_]; [lia|].
  destruct (callback t); reflexivity.
Qed.

(** X13: a POST answers with the queued bytes but does not empty the
    queue (only GET does): the GET that follows delivers the same bytes
    once more. *)
Theorem POST_does_not_drain_the_queue (w : world) (i : nat) (t : TLVServerHTTP)
    (hdrs hdrs' : gmap string string) (body body' : bytes) (v : string) (n : Z) :
  bound w i t ->
  hdrs !! "Content-Length" = Some v -> int_of_str v = Some n -> 0 <= n ->
  exists w1 w2 r1 r2,
    do_POST int_of_str (w, incoming (urlpath t) hdrs body []) = (Return tt, (w1, r1))
    /\ wfile r1 = egress t
    /\ transports w1 !! i = Some t
    /\ do_GET int_of_str (w1, incoming (urlpath t) hdrs' body' []) = (Return tt, (w2, r2))
    /\ wfile r2 = egress t
    /\ transports w2 !! i = Some (mkTLVServerHTTP (callback t) (urlpath t) []).
Proof.
  intros Hb Hh Hint Hn.
  pose proof (do_POST_bound w i t hdrs body v n Hb Hh Hint Hn) as Hpost.
  set (w1 := match callback t with
             | Some cb => log_call cb (mkTLVPacket (take (Z.to_nat n) body)) w
             | None => w
             end) in *.
  assert (Hb1 : bound w1 i t) by (subst w1; destruct (callback t); exact Hb).
  pose proof (HTTP.do_GET_bound int_of_str w1 i t hdrs' body' Hb1) as Hget.
  eexists _, _, _, _. split; [exact Hpost|]. split; [reflexivity|].
  split; [exact (proj1 Hb1)|]. split; [exact Hget|]. split; [reflexivity|].
  cbn [transports set_transport]. apply lookup_insert_eq.
Qed.

(** X14: a POST to the registered path without a usable Content-Length
    raises before anything is read, sent or delivered: TypeError when the
    request has no Content-Length header under any spelling of the name,
    ValueError when its only Content-Length header, spelled that way,
    holds a value that [int] refuses; the body is unread, no status is
    sent and the callback is not called. *)
Theorem POST_needs_a_content_length (w : world) (i : nat) (t : TLVServerHTTP)
    (hdrs : gmap string string) (body : bytes) (faults : list (option exn)) :
  bound w i t ->
  let req := incoming (urlpath t) hdrs body faults in
  (no_content_length hdrs ->
   do_POST int_of_str (w, req) = (Raise TypeError, (w, req)))
  /\ (forall v, hdrs !! "Content-Length" = Some v -> no_other_content_length hdrs ->
      int_of_str v = None ->
      do_POST int_of_str (w, req) = (Raise ValueError, (w, req))).
Proof.
  intros [Ht Hm] req.
  split; [intros Hno; pose proof (Hno "Content-Length"%string eq_refl) as Hh
         | intros v Hh _ Hv];
    unfold do_POST, dispatch, req, incoming; cbn [path];
    rewrite Hm, HTTP.handlers_of_nonempty; cbn [mbind option_bind];
    rewrite HTTP.handlers_of_POST; cbn [call_handler];
    unfold post, bind at 1, on_world at 1, get_self; rewrite Ht;
    cbn [path]; rewrite String.eqb_refl; cbn [negb];
    unfold bind at 1, on_request at 1, content_length; cbn [headers];
    rewrite Hh, ?Hv; reflexivity.
Qed.

(** X15: creating a transport does not disturb the transports that are
    registered on other paths: the new one gets a reference of its own and
    is registered, and the others stay registered as they were. *)
Theorem init_keeps_other_transports (w : world) (j : nat) (tj : TLVServerHTTP)
    (cb : option nat) (p : string) :
  bound w j tj -> urlpath tj <> p ->
  exists i w',
    init cb p w = (Return i, w')
    /\ i <> j
    /\ bound w' i (mkTLVServerHTTP cb p [])
    /\ bound w' j tj.
Proof.
  intros [Ht Hm] Hp.
  set (i := fresh (dom (transports w))).
  assert (Hij : i <> j).
  { intros E. apply (is_fresh (dom (transports w))). fold i. rewrite E.
    apply elem_of_dom. eauto. }
  eexists i, _. split; [reflexivity|]. split; [exact Hij|]. split; [split|split].
  - cbn [transports set_methods set_transport]. apply lookup_insert_eq.
  - cbn [methods set_methods set_transport urlpath]. apply lookup_insert_eq.
  - cbn [transports set_methods set_transport].
    rewrite lookup_insert_ne by exact Hij. exact Ht.
  - cbn [methods set_methods set_transport].
    rewrite lookup_insert_ne by congruence. exact Hm.
Qed.

End Dispatch.

(** Three packets on a new transport, then a GET. *)
Lemma sends_queue_in_order_PING_ACK_PING :
  exists w1 w2 r,
    send_each 0 [mkTLVPacket ping_frame; mkTLVPacket ACK_frame; mkTLVPacket ping_frame]
      (fresh_world "/") = (Return tt, w1)
    /\ do_GET int_of_digits (w1, incoming "/" ∅ [] []) = (Return tt, (w2, r))
    /\ status r = [200]
    /\ wfile r = [] ++ concat (map buffer
         [mkTLVPacket ping_frame; mkTLVPacket ACK_frame; mkTLVPacket ping_frame])
    /\ transports w2 !! 0%nat = Some (mkTLVServerHTTP (Some 7%nat) "/" []).
Proof.
  apply (sends_queue_in_order int_of_digits (fresh_world "/") 0
           (mkTLVServerHTTP (Some 7%nat) "/" [])
           [mkTLVPacket ping_frame; mkTLVPacket ACK_frame; mkTLVPacket ping_frame] ∅ []).
  apply HTTP.fresh_world_bound.
Defined.

(** A listener with the transport 0 on '/a' and the transport 1 on '/b'. *)
Lemma two_transports_bound :
  bound two_transports 0 (mkTLVServerHTTP (Some 7%nat) "/a" [])
  /\ bound two_transports 1 (mkTLVServerHTTP None "/b" []).
Proof. vm_compute. repeat split. Qed.

Lemma transports_are_isolated_a_b :
  exists w1 w2 r,
    send 0 (mkTLVPacket ping_frame) two_transports = (Return tt, w1)
    /\ do_GET int_of_digits (w1, incoming "/b" ∅ [] []) = (Return tt, (w2, r))
    /\ wfile r = []
    /\ transports w2 !! 0%nat
       = Some (mkTLVServerHTTP (Some 7%nat) "/a" ([] ++ buffer (mkTLVPacket ping_frame))).
Proof.
  apply (transports_are_isolated int_of_digits two_transports 0 1
           (mkTLVServerHTTP (Some 7%nat) "/a" []) (mkTLVServerHTTP None "/b" [])
           (mkTLVPacket ping_frame) ∅ []).
  - apply two_transports_bound.
  - apply two_transports_bound.
  - discriminate.
Defined.

Lemma close_unregisters_fresh_transport :
  exists w',
    close 0 (fresh_world "/") = (Return tt, w')
    /\ methods w' !! "/" = None
    /\ transports w' = transports (fresh_world "/")
    /\ do_GET int_of_digits (w', incoming "/" ∅ [] [])
       = (Return tt, (w', mkRequest "/" ∅ [] [404] [] []))
    /\ close 0 w' = (Raise (KeyError "/"), w')
    /\ set_urlpath 0 "cmd" w' = (Raise (KeyError "/"), w')
    /\ send 0 (mkTLVPacket ping_frame) w'
       = (Return tt,
          set_transport 0
            (mkTLVServerHTTP (Some 7%nat) "/" ([] ++ buffer (mkTLVPacket ping_frame))) w').
Proof.
  apply (close_unregisters int_of_digits (fresh_world "/") 0
           (mkTLVServerHTTP (Some 7%nat) "/" []) (mkTLVPacket ping_frame) "cmd" ∅ []).
  apply HTTP.fresh_world_bound.
Defined.

Lemma failed_GET_keeps_the_queue_of_PING :
  let w := snd (send 0 (mkTLVPacket ping_frame) (fresh_world "/")) in
  do_GET int_of_digits (w, incoming "/" ∅ [] (None :: Some (OSError EPIPE) :: []))
  = (Raise (OSError EPIPE), (w, mkRequest "/" ∅ [] [200] [] []))
  /\ do_GET int_of_digits (w, incoming "/" ∅ [] (Some (OSError EPIPE) :: []))
     = (Raise (OSError EPIPE), (w, mkRequest "/" ∅ [] [] [] [])).
Proof.
  apply (failed_GET_keeps_the_queue int_of_digits
           (snd (send 0 (mkTLVPacket ping_frame) (fresh_world "/"))) 0
           (mkTLVServerHTTP (Some 7%nat) "/" ping_frame) ∅ [] (OSError EPIPE) []).
  vm_compute. repeat split.
Defined.

Lemma POST_then_GET_deliver_PING_twice :
  let w := snd (send 0 (mkTLVPacket ping_frame) (fresh_world "/")) in
  exists w1 w2 r1 r2,
    do_POST int_of_digits
      (w, incoming "/" {[ "Content-Length" := "11" ]} ACK_frame []) = (Return tt, (w1, r1))
    /\ wfile r1 = ping_frame
    /\ transports w1 !! 0%nat = Some (mkTLVServerHTTP (Some 7%nat) "/" ping_frame)
    /\ do_GET int_of_digits (w1, incoming "/" ∅ [] []) = (Return tt, (w2, r2))
    /\ wfile r2 = ping_frame
    /\ transports w2 !! 0%nat = Some (mkTLVServerHTTP (Some 7%nat) "/" []).
Proof.
  apply (POST_does_not_drain_the_queue int_of_digits
           (snd (send 0 (mkTLVPacket ping_frame) (fresh_world "/"))) 0
           (mkTLVServerHTTP (Some 7%nat) "/" ping_frame)
           {[ "Content-Length" := "11" ]} ∅ ACK_frame [] "11" 11).
  - vm_compute. repeat split.
  - reflexivity.
  - reflexivity.
  - lia.
Defined.

(** A POST with no header at all, and one whose Content-Length is not a
    number. *)
Lemma POST_without_content_length :
  do_POST int_of_digits (fresh_world "/", incoming "/" ∅ ACK_frame [])
  = (Raise TypeError, (fresh_world "/", incoming "/" ∅ ACK_frame []))
  /\ do_POST int_of_digits
       (fresh_world "/", incoming "/" {[ "Content-Length" := "eleven" ]} ACK_frame [])
     = (Raise ValueError,
        (fresh_world "/", incoming "/" {[ "Content-Length" := "eleven" ]} ACK_frame [])).
Proof.
  split.
  - apply (POST_needs_a_content_length int_of_digits (fresh_world "/") 0
             (mkTLVServerHTTP (Some 7%nat) "/" []) ∅ ACK_frame []
             (HTTP.fresh_world_bound "/")).
    intros k _. apply lookup_empty.
  - apply (proj2 (POST_needs_a_content_length int_of_digits (fresh_world "/") 0
             (mkTLVServerHTTP (Some 7%nat) "/" [])
             {[ "Content-Length" := "eleven" ]} ACK_frame []
             (HTTP.fresh_world_bound "/")) "eleven").
    + reflexivity.
    + intros k _ Hk. apply lookup_singleton_ne. congruence.
    + reflexivity.
Defined.

Lemma init_keeps_transport_a :
  exists i w',
    init None "/b" (fresh_world "/a") = (Return i, w')
    /\ i <> 0%nat
    /\ bound w' i (mkTLVServerHTTP None "/b" [])
    /\ bound w' 0 (mkTLVServerHTTP (Some 7%nat) "/a" []).
Proof.
  apply (init_keeps_other_transports (fresh_world "/a") 0
           (mkTLVServerHTTP (Some 7%nat) "/a" []) None "/b").
  - apply HTTP.fresh_world_bound.
  - discriminate.
Defined.

End HTTP_transport.

(** ** HTTPListener: the life cycle *)

Module HTTPListener_lifecycle.
Import HTTPListenerMethods.

(** X16: [loop] serves no request.  On a listener that [listen] started,
    the first turn calls [self.sock.accept()], which the server does not
    have; the handler answers the AttributeError with [stop], so [loop]
    returns after that one turn with the server closed and [running]
    False. *)
Theorem loop_stops_the_listener (h : string) (p : Z) (srv : option PrimitiveServer)
    (r : option bool) (fuel : nat) :
  exists started,
    listen None (mkHTTPListener h p srv r) = (Return tt, started)
    /\ sock started = Some (mkPrimitiveServer false)
    /\ running started = Some true
    /\ loop (S fuel) started
       = (Return tt, mkHTTPListener h p (Some (mkPrimitiveServer true)) (Some false)).
Proof.
  eexists. split; [reflexivity|]. split; [reflexivity|]. split; [reflexivity|].
  destruct fuel; reflexivity.
Qed.

(** X17: a listener that was never started.  [stop] and [accept] raise
    the RuntimeError 'HTTP listener is not started!', [stop] only after
    it set [running] to False; a [listen] that fails raises a RuntimeError
    naming the port and sets nothing, so that [loop], which reads
    [self.running], raises AttributeError. *)
Theorem lifecycle_without_server (h : string) (p : Z) (e : exn) (fuel : nat)
    (handle_request : M PrimitiveServer unit) :
  let fresh := mkHTTPListener h p None None in
  stop fresh = (Raise not_started, mkHTTPListener h p None (Some false))
  /\ accept handle_request fresh = (Raise not_started, fresh)
  /\ listen (Some e) fresh
     = (Raise (RuntimeError ("Failed to start HTTP listener on port "
                               +:+ pretty p +:+ "!")), fresh)
  /\ loop fuel fresh = (Raise AttributeError, fresh)
  /\ loop fuel (snd (stop fresh)) = (Return tt, snd (stop fresh)).
Proof.
  cbn zeta. repeat split; destruct fuel; reflexivity.
Qed.

End HTTPListener_lifecycle.

(** ** FTPClient.login *)

Module FTP_session.
Import FTPSessionMethods.

(** X18: [login] returns when [ftplib] accepts the user, and raises
    AttributeError when it does not, whatever the failure: the handler
    means to raise a RuntimeError, but builds its message from
    [self.username], which no method sets. *)
Theorem login_failure_raises_AttributeError (env : ftplib_session) (self : FTPClient)
    (username password : string) :
  login env self username password
  = match login_failure env username password with
    | None => Return tt
    | Some _ => Raise AttributeError
    end.
Proof.
  unfold login. destruct (login_failure env username password); reflexivity.
Qed.

(** [connect] and [close], whose messages use [self.pair], do raise their
    RuntimeError. *)
Example connect_failure_names_the_pair :
  connect (mkSession (Some (OSError 111)) (fun _ _ => None) None)
    (mkFTPClient "10.0.0.1" 21 (mkFTP (fun _ => ([], None))))
  = Raise (RuntimeError "Connection failed for 10.0.0.1:21!").
Proof. reflexivity. Qed.

End FTP_session.
